(** * BMI tracker: the persistence and analytics engine of [BMI.py]

    A shallow embedding of the database utilities (class [DB]), the BMI
    utilities ([calculate_bmi], [bmi_category]) and the engine-facing methods
    of [BMIApp] (save, delete, statistics, export), followed by the
    properties the specification states about them.

    Modelling conventions.
    - A Python [float] is an exact rational ([Q]).  Overflow, underflow, NaN
      and the representation error of binary64 are outside the model;
      division by zero raises [ZeroDivisionError], as in Python.
    - A Python exception is a value of [exn]; a computation that may raise
      returns a [result].
    - The SQLite tables are lists of rows kept in rowid order, each with the
      [sqlite_sequence] counter that AUTOINCREMENT maintains. *)

From Stdlib Require Import ZArith QArith Qround Qabs.
From Stdlib Require Import String Ascii List Bool Lia Lqa.
From Stdlib Require Import Permutation Sorted.
Import ListNotations.

Local Open Scope string_scope.
Local Open Scope Q_scope.

(* ================================================================== *)
(** ** Python runtime notions *)

Module Py.

(** The exceptions that the modelled code can raise. *)
Inductive exn : Type :=
| ValueError (msg : string)
| ZeroDivisionError
| IndexError
| IntegrityError (msg : string).

Inductive result (A : Type) : Type :=
| Ok (a : A)
| Raise (e : exn).

Arguments Ok {A} a.
Arguments Raise {A} e.

Definition bind {A B : Type} (m : result A) (k : A -> result B) : result B :=
  match m with
  | Ok a => k a
  | Raise e => Raise e
  end.

(** Comparison operators on numbers. *)
Definition lt (x y : Q) : bool :=
  match x ?= y with Lt => true | _ => false end.

Definition le (x y : Q) : bool :=
  match x ?= y with Gt => false | _ => true end.

(** [x / y] on floats: division by zero raises. *)
Definition div (x y : Q) : result Q :=
  if Qeq_bool y 0 then Raise ZeroDivisionError else Ok (x / y).

(** Nearest integer, ties to the even neighbour. *)
Definition round_half_even (x : Q) : Z :=
  let f := Qfloor x in
  match ((x - inject_Z f) ?= (1 # 2))%Q with
  | Lt => f
  | Gt => (f + 1)%Z
  | Eq => if Z.even f then f else (f + 1)%Z
  end.

(** [round(x, ndigits)] for a float [x] and [ndigits >= 0]: the multiple
    of [10^-ndigits] nearest to [x], ties to even. *)
Definition round (x : Q) (ndigits : nat) : Q :=
  let scale := Pos.pow 10 (Pos.of_nat ndigits) in
  match ndigits with
  | O => inject_Z (round_half_even x)
  | S _ => Qmake (round_half_even (x * inject_Z (Zpos scale))) scale
  end.

End Py.

Notation "x <- m ;; k" := (Py.bind m (fun x => k))
  (at level 61, m at next level, right associativity).

Import Py.

(* ================================================================== *)
(** ** BMI utilities *)

(** [calculate_bmi(weight, height, unit='metric')]. *)
Definition calculate_bmi (weight height : Q) (unit : string) : result Q :=
  bmi <- (if String.eqb unit "metric" then
            if Py.le height 0 then
              Raise (ValueError "Height must be positive")
            else
              h_m <- Py.div height 100.0 ;;
              Py.div weight (h_m * h_m)
          else
            (* imperial: BMI = 703 * lb / in^2 *)
            Py.div (703.0 * weight) (height * height)) ;;
  Ok (Py.round bmi 2).

(** [bmi_category(bmi)]: WHO standard categories (simplified). *)
Definition bmi_category (bmi : Q) : string :=
  if Py.lt bmi 18.5 then "Underweight"
  else if Py.lt bmi 25.0 then "Normal"
  else if Py.lt bmi 30.0 then "Overweight"
  else "Obese".

(** The formulas as the specification words them. *)
Definition spec_metric_bmi (weight height : Q) : Q :=
  Py.round (weight / ((height / 100) ^ 2)) 2.

Definition spec_imperial_bmi (weight height : Q) : Q :=
  Py.round (703 * weight / (height ^ 2)) 2.

(* ================================================================== *)
(** ** Text *)

Module Str.

Definition LF : ascii := "010"%char.

(** [str.isspace] on the ASCII range. *)
Definition isspace (c : ascii) : bool :=
  let n := N_of_ascii c in
  ((9 <=? n) && (n <=? 13) || (28 <=? n) && (n <=? 32))%N.

Fixpoint lstrip (s : string) : string :=
  match s with
  | EmptyString => EmptyString
  | String c rest => if isspace c then lstrip rest else s
  end.

(** Drops the trailing whitespace: a character is kept when it is not a
    space or something is kept after it. *)
Fixpoint rstrip (s : string) : string :=
  match s with
  | EmptyString => EmptyString
  | String c rest =>
      match rstrip rest with
      | EmptyString => if isspace c then EmptyString else String c EmptyString
      | kept => String c kept
      end
  end.

(** [s.strip()]. *)
Definition strip (s : string) : string := rstrip (lstrip s).

(** Truth value of a string: empty is false. *)
Definition truthy (s : string) : bool :=
  match s with EmptyString => false | _ => true end.

(** SQLite's NOCASE collation folds the 26 upper-case ASCII letters. *)
Definition fold_case (c : ascii) : ascii :=
  let n := N_of_ascii c in
  if ((65 <=? n) && (n <=? 90))%N then ascii_of_N (n + 32) else c.

Fixpoint nocase (s : string) : string :=
  match s with
  | EmptyString => EmptyString
  | String c rest => String (fold_case c) (nocase rest)
  end.

Definition digit (n : Z) : ascii := ascii_of_N (48 + Z.to_N n).

(** Decimal digits of a natural number, most significant first; [fuel]
    bounds the number of digits. *)
Fixpoint digits (fuel : nat) (n : Z) (acc : string) : string :=
  match fuel with
  | O => acc
  | S fuel' =>
      let acc' := String (digit (n mod 10)) acc in
      if (n <? 10)%Z then acc' else digits fuel' (n / 10)%Z acc'
  end.

Definition of_nonneg (n : Z) : string :=
  digits (S (Z.to_nat (Z.log2 n))) n EmptyString.

(** [str(n)] for an int. *)
Definition of_int (n : Z) : string :=
  if (n <? 0)%Z then String "-" (of_nonneg (- n)) else of_nonneg n.

(** [f'{x:.2f}']: sign, integer part, point, two digits; the magnitude is
    rounded to the nearest hundredth, ties to even. *)
Definition format_2f (x : Q) : string :=
  let n := Py.round_half_even (Qabs x * 100) in
  let body := of_nonneg (n / 100) ++ "." ++
              String (digit ((n / 10) mod 10)) (String (digit (n mod 10)) EmptyString) in
  if Py.lt x 0 then String "-" body else body.

End Str.

(** What the program takes from its platform.  A float prints ([str] and
    [repr] agree on floats) as the shortest digit string that reads back as
    the same binary64 value, which has no counterpart on exact rationals,
    so the printer is a parameter; so are the outcome of [import pandas]
    and [os.linesep], the line terminator that pandas writes. *)
Class Platform : Type := {
  float_repr : Q -> string;
  PANDAS_AVAILABLE : bool;
  linesep : string
}.

(* ================================================================== *)
(** ** The SQL engine *)

(** [ORDER BY key] under the BINARY collation: the rows in ascending order
    of a text key.  The statement fixes the key, not the algorithm that
    the engine runs, so the sorting function is a parameter of the
    queries, constrained by [OrderBy_ok]. *)
Class OrderBy : Type := order_by : forall A : Type, (A -> string) -> list A -> list A.

Arguments order_by {OrderBy A} key rows.

Definition key_le {A : Type} (key : A -> string) (x y : A) : Prop :=
  String.leb (key x) (key y) = true.

Definition OrderBy_ok (O : OrderBy) : Prop :=
  forall (A : Type) (key : A -> string) (rows : list A),
    Permutation (order_by key rows) rows /\ Sorted (key_le key) (order_by key rows).

(** Insertion of [x] into a sorted list: [y] stays ahead of [x] while
    [ahead (key y) (key x)] holds. *)
Fixpoint insert_by {A : Type} (ahead : string -> string -> bool)
    (key : A -> string) (x : A) (l : list A) : list A :=
  match l with
  | [] => [x]
  | y :: l' =>
      if ahead (key y) (key x) then y :: insert_by ahead key x l' else x :: l
  end.

Definition insertion_sort {A : Type} (ahead : string -> string -> bool)
    (key : A -> string) (l : list A) : list A :=
  fold_right (insert_by ahead key) [] l.

(** An engine that keeps rows with equal keys in scan order. *)
Definition stable_engine : OrderBy :=
  fun A key rows => insertion_sort String.ltb key rows.


(* ================================================================== *)
(** ** The tables and the SQL statements the program issues *)

Module Sql.

(** A row of table [users]. *)
Record user : Type := mk_user {
  u_id : Z;
  u_name : string;
  u_dob : option string
}.

(** A row of table [readings]. *)
Record reading : Type := mk_reading {
  r_id : Z;
  r_user_id : Z;
  r_timestamp : string;
  r_weight : Q;
  r_height : Q;
  r_unit : string;
  r_bmi : Q;
  r_category : string;
  r_notes : option string
}.

(** Both tables in rowid order, and for each the largest rowid ever
    handed out: AUTOINCREMENT never reuses one. *)
Record tables : Type := mk {
  users : list user;
  users_seq : Z;
  readings : list reading;
  readings_seq : Z
}.

Definition empty : tables := mk [] 0 [] 0.

Definition unique_violation : exn :=
  IntegrityError "UNIQUE constraint failed: users.name".

Definition not_null_violation : exn :=
  IntegrityError "NOT NULL constraint failed: readings.user_id".

(** [name TEXT UNIQUE] compares under the default BINARY collation. *)
Definition name_taken (name : string) (rows : list user) : bool :=
  existsb (fun u => String.eqb (u_name u) name) rows.

(** INSERT INTO users (name, dob) VALUES (?, ?) *)
Definition insert_user (tb : tables) (name : string) (dob : option string)
  : result (tables * Z) :=
  if name_taken name (users tb) then Raise unique_violation
  else
    let uid := (users_seq tb + 1)%Z in
    Ok (mk (users tb ++ [mk_user uid name dob]) uid
           (readings tb) (readings_seq tb),
        uid).

(** INSERT INTO readings (user_id, timestamp, ...) VALUES (?, ...).
    Column [user_id] is NOT NULL.  Its FOREIGN KEY clause is declared,
    but SQLite enforces foreign keys only under
    [PRAGMA foreign_keys = ON], which the program never issues. *)
Definition insert_reading (tb : tables) (user_id : option Z) (ts : string)
    (weight height : Q) (unit : string) (bmi : Q) (category : string)
    (notes : option string) : result (tables * Z) :=
  match user_id with
  | None => Raise not_null_violation
  | Some uid =>
      let rid := (readings_seq tb + 1)%Z in
      Ok (mk (users tb) (users_seq tb)
             (readings tb ++
                [mk_reading rid uid ts weight height unit bmi category notes])
             rid,
          rid)
  end.

Definition rename (user_id : Z) (name : string) (u : user) : user :=
  if (u_id u =? user_id)%Z then mk_user (u_id u) name (u_dob u) else u.

(** UPDATE users SET name=? WHERE id=? *)
Definition update_user_name (tb : tables) (name : string) (user_id : Z)
  : result tables :=
  if existsb (fun u => (u_id u =? user_id)%Z) (users tb)
     && name_taken name (filter (fun u => negb (u_id u =? user_id)%Z) (users tb))
  then Raise unique_violation
  else Ok (mk (map (rename user_id name) (users tb)) (users_seq tb)
              (readings tb) (readings_seq tb)).

(** DELETE FROM readings WHERE user_id=? *)
Definition delete_readings_of (tb : tables) (user_id : Z) : tables :=
  mk (users tb) (users_seq tb)
     (filter (fun r => negb (r_user_id r =? user_id)%Z) (readings tb))
     (readings_seq tb).

(** DELETE FROM users WHERE id=? *)
Definition delete_user (tb : tables) (user_id : Z) : tables :=
  mk (filter (fun u => negb (u_id u =? user_id)%Z) (users tb)) (users_seq tb)
     (readings tb) (readings_seq tb).

(** DELETE FROM readings WHERE id=? *)
Definition delete_reading (tb : tables) (reading_id : Z) : tables :=
  mk (users tb) (users_seq tb)
     (filter (fun r => negb (r_id r =? reading_id)%Z) (readings tb))
     (readings_seq tb).

End Sql.

(* ================================================================== *)
(** ** Database utilities: class [DB] *)

Module DB.

Import Sql.

(** The connection: [view] is what its statements see, the committed
    data with the changes of the open transaction; [commits] lists the
    snapshots that each [commit] wrote to the file, newest first. *)
Record t : Type := mk {
  view : tables;
  commits : list tables
}.

(** The 8-tuple that [get_readings] selects:
    [(id, timestamp, weight, height, unit, bmi, category, notes)]. *)
Definition row : Type :=
  (Z * string * Q * Q * string * Q * string * option string)%type.

Definition execute (db : t) (tb : tables) : t := mk tb (commits db).

(** [self.conn.commit()] *)
Definition commit (db : t) : t := mk (view db) (view db :: commits db).

(** [ensure_tables]: CREATE TABLE IF NOT EXISTS, on a file that is new
    ([None]) or holds earlier data.  The schema declares
    [users.name TEXT UNIQUE NOT NULL], [readings.user_id INTEGER NOT NULL]
    and [FOREIGN KEY(user_id) REFERENCES users(id)]; the statements of
    module [Sql] carry the constraints that SQLite enforces. *)
Definition ensure_tables (file : option tables) : tables :=
  match file with
  | None => empty
  | Some tb => tb
  end.

(** [DB()]: connects, then [ensure_tables] and its commit. *)
Definition connect (file : option tables) : t :=
  commit (mk (ensure_tables file) []).

(** [add_user]: the new id, or [None] where the INSERT raised
    [IntegrityError]. *)
Definition add_user (db : t) (name : string) (dob : option string)
  : t * option Z :=
  match insert_user (view db) name dob with
  | Ok (tb, lastrowid) => (commit (execute db tb), Some lastrowid)
  | Raise _ => (db, None)
  end.

(** [list_users]: ORDER BY name COLLATE NOCASE. *)
Definition list_users `{OrderBy} (db : t) : list (Z * string * option string) :=
  map (fun u => (u_id u, u_name u, u_dob u))
      (order_by (fun u => Str.nocase (u_name u)) (users (view db))).

Definition get_user (db : t) (user_id : Z) : option (Z * string * option string) :=
  match find (fun u => (u_id u =? user_id)%Z) (users (view db)) with
  | Some u => Some (u_id u, u_name u, u_dob u)
  | None => None
  end.

(** [save_reading]: [ts] is what [datetime.utcnow().isoformat()] returns
    at the call.  An exception of the INSERT propagates to the caller. *)
Definition save_reading (db : t) (ts : string) (user_id : option Z)
    (weight height : Q) (unit : string) (bmi : Q) (category : string)
    (notes : option string) : t * result Z :=
  match insert_reading (view db) user_id ts weight height unit bmi category notes with
  | Ok (tb, lastrowid) => (commit (execute db tb), Ok lastrowid)
  | Raise e => (db, Raise e)
  end.

Definition select_row (r : reading) : row :=
  (r_id r, r_timestamp r, r_weight r, r_height r, r_unit r, r_bmi r,
   r_category r, r_notes r).

Definition owned_by (user_id : Z) (r : reading) : bool :=
  (r_user_id r =? user_id)%Z.

(** [get_readings]: WHERE user_id=? ORDER BY timestamp. *)
Definition get_readings `{OrderBy} (db : t) (user_id : Z) : list row :=
  map select_row
      (order_by r_timestamp (filter (owned_by user_id) (readings (view db)))).

End DB.

Definition row_bmi (rec : DB.row) : Q :=
  let '(_, _, _, _, _, bmi, _, _) := rec in bmi.

(* ================================================================== *)
(** ** The [csv] module, excel dialect *)

Module Csv.

Import Str.















End Csv.

(* ================================================================== *)
(** ** Built-ins used by the statistics *)

Definition py_sum (l : list Q) : Q := fold_left Qplus l 0.

Definition py_len {A : Type} (l : list A) : Q := inject_Z (Z.of_nat (length l)).

(** [min] and [max] keep the first of several equal extremes. *)
Definition py_min (l : list Q) : result Q :=
  match l with
  | [] => Raise (ValueError "min() arg is an empty sequence")
  | x :: rest => Ok (fold_left (fun m y => if Py.lt y m then y else m) rest x)
  end.

Definition py_max (l : list Q) : result Q :=
  match l with
  | [] => Raise (ValueError "max() arg is an empty sequence")
  | x :: rest => Ok (fold_left (fun m y => if Py.lt m y then y else m) rest x)
  end.

(** [l[-1]] *)
Definition py_last (l : list Q) : result Q :=
  match l with
  | [] => Raise IndexError
  | x :: rest => Ok (last rest x)
  end.

(** [str(e)] for the exceptions that reach a message box. *)
Definition exn_str (e : exn) : string :=
  match e with
  | ValueError msg => msg
  | ZeroDivisionError => "float division by zero"
  | IndexError => "list index out of range"
  | IntegrityError msg => msg
  end.

(* ================================================================== *)
(** ** The application: class [BMIApp] *)

Module BMIApp.

(** Message boxes. *)
Inductive dialog : Type :=
| showinfo (title message : string)
| showwarning (title message : string)
| showerror (title message : string).

(** The attributes of the application that its engine-facing methods
    read or write.  An entry of the form holds what [float()] makes of
    its text: [None] where [float()] raises.  [last_calculation] is the
    attribute [_last_calculation], absent until the first result is
    shown. *)
Record t : Type := mk {
  db : DB.t;
  selected_user_id : option Z;
  users_map : list (string * Z);
  user_listbox : list string;
  weight_var : option Q;
  height_var : option Q;
  unit_mode : string;
  notes_var : string;
  result_text : string;
  last_calculation : option (Q * string);
  stats_label : string
}.

Definition with_db (app : t) (d : DB.t) : t :=
  mk d (selected_user_id app) (users_map app) (user_listbox app)
     (weight_var app) (height_var app) (unit_mode app) (notes_var app)
     (result_text app) (last_calculation app) (stats_label app).

Definition with_selected_user_id (app : t) (sel : option Z) : t :=
  mk (db app) sel (users_map app) (user_listbox app)
     (weight_var app) (height_var app) (unit_mode app) (notes_var app)
     (result_text app) (last_calculation app) (stats_label app).

Definition with_users (app : t) (m : list (string * Z)) (box : list string) : t :=
  mk (db app) (selected_user_id app) m box
     (weight_var app) (height_var app) (unit_mode app) (notes_var app)
     (result_text app) (last_calculation app) (stats_label app).

Definition with_inputs (app : t) (w h : option Q) (mode notes : string) : t :=
  mk (db app) (selected_user_id app) (users_map app) (user_listbox app)
     w h mode notes
     (result_text app) (last_calculation app) (stats_label app).

Definition with_result (app : t) (txt : string) (calc : Q * string) : t :=
  mk (db app) (selected_user_id app) (users_map app) (user_listbox app)
     (weight_var app) (height_var app) (unit_mode app) (notes_var app)
     txt (Some calc) (stats_label app).

Definition with_stats_label (app : t) (txt : string) : t :=
  mk (db app) (selected_user_id app) (users_map app) (user_listbox app)
     (weight_var app) (height_var app) (unit_mode app) (notes_var app)
     (result_text app) (last_calculation app) txt.

(** [not self.selected_user_id]: true for [None] and for 0. *)
Definition no_user_selected (app : t) : bool :=
  match selected_user_id app with
  | None => true
  | Some uid => (uid =? 0)%Z
  end.

(** [d[k] = v] and [d.get(k)] on a dict kept as an association list. *)
Fixpoint dict_set (d : list (string * Z)) (k : string) (v : Z)
  : list (string * Z) :=
  match d with
  | [] => [(k, v)]
  | (k', v') :: rest =>
      if String.eqb k' k then (k, v) :: rest else (k', v') :: dict_set rest k v
  end.

Fixpoint dict_get (d : list (string * Z)) (k : string) : option Z :=
  match d with
  | [] => None
  | (k', v') :: rest => if String.eqb k' k then Some v' else dict_get rest k
  end.

Section Methods.

Context `{OrderBy} `{Platform}.

Definition refresh_user_list (app : t) : t :=
  let users := DB.list_users (db app) in
  with_users app
    (fold_left (fun m u => let '(uid, name, dob) := u in dict_set m name uid)
               users [])
    (map (fun u => let '(uid, name, dob) := u in name) users).

Definition stats_text (mean_bmi min_bmi max_bmi last_bmi : Q) : string :=
  "Mean: " ++ Str.format_2f mean_bmi ++ "  Min: " ++ Str.format_2f min_bmi
  ++ "  Max: " ++ Str.format_2f max_bmi ++ "  Last: " ++ Str.format_2f last_bmi.

(** The statistics of [refresh_chart], from [bmis] as the loop over
    the readings collects them. *)
Definition stats (bmis : list Q) : result (Q * Q * Q * Q) :=
  mean_bmi <- Py.div (py_sum bmis) (py_len bmis) ;;
  min_bmi <- py_min bmis ;;
  max_bmi <- py_max bmis ;;
  last_bmi <- py_last bmis ;;
  Ok (mean_bmi, min_bmi, max_bmi, last_bmi).

(** The text that [refresh_chart] gives the statistics label for the
    readings it fetched. *)
Definition stats_of_readings (readings : list DB.row) : string :=
  match readings with
  | [] => "No readings"
  | _ =>
      let bmis := map row_bmi readings in
      match stats bmis with
      | Ok (mean_bmi, min_bmi, max_bmi, last_bmi) =>
          stats_text mean_bmi min_bmi max_bmi last_bmi
      | Raise _ => "Unable to compute stats"
      end
  end.

Definition refresh_chart (app : t) : t :=
  if no_user_selected app then with_stats_label app "No user selected"
  else
    match selected_user_id app with
    | None => with_stats_label app "No user selected"
    | Some uid =>
        with_stats_label app (stats_of_readings (DB.get_readings (db app) uid))
    end.

(** [sel] is the selected index of the list box, if any. *)
Definition on_user_select (app : t) (sel : option nat) : t :=
  match sel with
  | None => app
  | Some i =>
      match nth_error (user_listbox app) i with
      | None => app
      | Some display =>
          refresh_chart
            (with_selected_user_id app (dict_get (users_map app) display))
      end
  end.

(** [name] and [dob] are the answers to the two prompts ([None] for a
    cancelled one); the second prompt appears only after a non-empty
    name. *)
Definition add_user_dialog (app : t) (name dob : option string)
  : t * option dialog :=
  match name with
  | None => (app, None)
  | Some name =>
      if negb (Str.truthy name) then (app, None)
      else
        let (db', uid) := DB.add_user (db app) (Str.strip name) dob in
        match uid with
        | None =>
            (with_db app db',
             Some (showwarning "Add User" "User already exists or invalid name"))
        | Some _ => (refresh_user_list (with_db app db'), None)
        end
  end.

Definition rename_user_dialog (app : t) (newname : option string)
  : t * option dialog :=
  if no_user_selected app then
    (app, Some (showwarning "Rename" "Select a user first"))
  else
    match selected_user_id app with
    | None => (app, None)
    | Some uid =>
        match DB.get_user (db app) uid with
        | None => (app, None)
        | Some _ =>
            match newname with
            | None => (app, None)
            | Some newname =>
                if negb (Str.truthy newname) then (app, None)
                else
                  match Sql.update_user_name (DB.view (db app))
                                             (Str.strip newname) uid with
                  | Ok tb =>
                      (refresh_user_list
                         (with_db app (DB.commit (DB.execute (db app) tb))),
                       None)
                  | Raise e =>
                      (app,
                       Some (showerror "Rename" ("Failed to rename: " ++ exn_str e)))
                  end
            end
        end
    end.

(** [confirm] is the answer to the yes/no question. *)
Definition delete_user (app : t) (confirm : bool) : t * option dialog :=
  if no_user_selected app then
    (app, Some (showwarning "Delete" "Select a user first"))
  else
    match selected_user_id app with
    | None => (app, None)
    | Some uid =>
        if negb confirm then (app, None)
        else
          let c1 := DB.execute (db app) (Sql.delete_readings_of (DB.view (db app)) uid) in
          let c2 := DB.execute c1 (Sql.delete_user (DB.view c1) uid) in
          let c3 := DB.commit c2 in
          (with_stats_label
             (refresh_user_list (with_selected_user_id (with_db app c3) None))
             "No user selected",
           None)
    end.

Definition in_range (lo x hi : Q) : bool := Py.le lo x && Py.le x hi.

Definition parse_float (s : option Q) (name : string) : result Q :=
  match s with
  | None => Raise (ValueError (name ++ " must be a number"))
  | Some v => Ok v
  end.

Definition validate_inputs (app : t) : result (Q * Q * string) :=
  if no_user_selected app then Raise (ValueError "Select or add a user first")
  else
    w <- parse_float (weight_var app) "Weight" ;;
    h <- parse_float (height_var app) "Height" ;;
    let mode := unit_mode app in
    (* Basic reasonable ranges *)
    if String.eqb mode "metric" then
      if negb (in_range 20 w 500) then
        Raise (ValueError "Weight (kg) must be between 20 and 500")
      else if negb (in_range 50 h 272) then
        Raise (ValueError "Height (cm) must be between 50 and 272")
      else Ok (w, h, mode)
    else
      if negb (in_range 44 w 1100) then
        Raise (ValueError "Weight (lb) must be between 44 and 1100")
      else if negb (in_range 20 h 107) then
        Raise (ValueError "Height (in) must be between 20 and 107")
      else Ok (w, h, mode).

Definition advice (category : string) : string :=
  if String.eqb category "Underweight" then
    "Advice: Consider a nutritious calorie-rich diet and consult a doctor if necessary."
  else if String.eqb category "Normal" then
    "Advice: Maintain your current lifestyle. Keep active and balanced diet."
  else if String.eqb category "Overweight" then
    "Advice: Consider regular exercise, reduce calorie intake, consult healthcare professional."
  else
    "Advice: Strongly consider consulting a healthcare professional; focus on medically supervised plan.".

Definition show_result (app : t) (bmi : Q) (category : string) : t :=
  let txt := "BMI: " ++ float_repr bmi ++ String Str.LF ("Category: " ++ category)
             ++ String Str.LF (advice category) in
  (* store last calculation so user can save *)
  with_result app txt (bmi, category).

Definition calculate_action (app : t) : t * option dialog :=
  match validate_inputs app with
  | Raise e => (app, Some (showerror "Input error" (exn_str e)))
  | Ok (w, h, mode) =>
      match calculate_bmi w h mode with
      | Raise e => (app, Some (showerror "Calculation error" (exn_str e)))
      | Ok bmi =>
          let cat := bmi_category bmi in
          (show_result app bmi cat, None)
      end
  end.

(** [ts] is the reading of the clock, should the INSERT be reached. *)
Definition save_action (app : t) (ts : string) : t * option dialog :=
  match last_calculation app with
  | None => (app, Some (showwarning "Save" "Calculate BMI before saving"))
  | Some (bmi, category) =>
      match weight_var app, height_var app with
      | Some w, Some h =>
          let mode := unit_mode app in
          let stripped := Str.strip (notes_var app) in
          let notes := if Str.truthy stripped then Some stripped else None in
          match DB.save_reading (db app) ts (selected_user_id app)
                                w h mode bmi category notes with
          | (db', Ok rid) =>
              (refresh_chart (with_db app db'),
               Some (showinfo "Saved"
                       ("Reading saved (id " ++ Str.of_int rid ++ ")")))
          | (db', Raise e) =>
              (with_db app db', Some (showerror "DB error" (exn_str e)))
          end
      | _, _ => (app, Some (showerror "Save error" "Invalid current inputs"))
      end
  end.

(** [sel] holds the ids of the selected rows of the history table. *)
Definition delete_selected_reading (app : t) (sel : list Z) (confirm : bool)
  : t * option dialog :=
  match sel with
  | [] => (app, Some (showwarning "Delete" "Select a reading first"))
  | _ =>
      if negb confirm then (app, None)
      else
        let c :=
          fold_left (fun c iid => DB.execute c (Sql.delete_reading (DB.view c) iid))
                    sel (db app) in
        (refresh_chart (with_db app (DB.commit c)), None)
  end.








(** [BMIApp()]: opens the database and fills the user list. *)
Definition init (file : option Sql.tables) : t :=
  refresh_user_list
    (mk (DB.connect file) None [] [] None None "metric" EmptyString
        EmptyString None "No user selected").

(** What the user can do to the window.  The radio buttons offer the
    two unit systems only. *)
Inductive event : Type :=
| Edit_inputs (weight height : option Q) (notes : string)
| Choose_unit (imperial : bool)
| Select_user (sel : option nat)
| Add_user (name dob : option string)
| Rename_user (newname : option string)
| Delete_user (confirm : bool)
| Calculate
| Save (ts : string)
| Delete_readings (sel : list Z) (confirm : bool).

Definition step (app : t) (ev : event) : t :=
  match ev with
  | Edit_inputs w h notes => with_inputs app w h (unit_mode app) notes
  | Choose_unit imperial =>
      with_inputs app (weight_var app) (height_var app)
                  (if imperial then "imperial" else "metric") (notes_var app)
  | Select_user sel => on_user_select app sel
  | Add_user name dob => fst (add_user_dialog app name dob)
  | Rename_user newname => fst (rename_user_dialog app newname)
  | Delete_user confirm => fst (delete_user app confirm)
  | Calculate => fst (calculate_action app)
  | Save ts => fst (save_action app ts)
  | Delete_readings sel confirm => fst (delete_selected_reading app sel confirm)
  end.

Definition run (file : option Sql.tables) (evs : list event) : t :=
  fold_left step evs (init file).

End Methods.

End BMIApp.

(* ================================================================== *)
(** ** Well-formed tables *)

(** Rowids are positive, ascending along the table and bounded by the
    AUTOINCREMENT counter. *)
Definition ids_ascending (ids : list Z) (seq : Z) : Prop :=
  StronglySorted Z.lt ids /\ Forall (fun i => (0 < i <= seq)%Z) ids.

Definition user_ids (tb : Sql.tables) : list Z := map Sql.u_id (Sql.users tb).

(** Every reading is owned by a user of the table. *)
Definition no_orphans (tb : Sql.tables) : Prop :=
  forall r, In r (Sql.readings tb) -> In (Sql.r_user_id r) (user_ids tb).

(** The readings lie in ascending order of id, below the counter. *)
Definition readings_ascending (tb : Sql.tables) : Prop :=
  ids_ascending (map Sql.r_id (Sql.readings tb)) (Sql.readings_seq tb).

(** The stored category is the category of the stored bmi. *)
Definition category_consistent (r : Sql.reading) : Prop :=
  Sql.r_category r = bmi_category (Sql.r_bmi r).

(** The pair kept for saving came out of a calculation. *)
Definition calculation_kept (app : BMIApp.t) : Prop :=
  forall bmi category,
    BMIApp.last_calculation app = Some (bmi, category) ->
    category = bmi_category bmi /\
    exists w h unit, calculate_bmi w h unit = Ok bmi.

(** The selected user and the users listed in the window exist. *)
Definition selection_valid (app : BMIApp.t) : Prop :=
  (forall uid, BMIApp.selected_user_id app = Some uid ->
               In uid (user_ids (DB.view (BMIApp.db app)))) /\
  (forall name uid, BMIApp.dict_get (BMIApp.users_map app) name = Some uid ->
                    In uid (user_ids (DB.view (BMIApp.db app)))).

(** What holds of the application between two events. *)
Definition app_inv (app : BMIApp.t) : Prop :=
  no_orphans (DB.view (BMIApp.db app)) /\
  selection_valid app /\
  Forall category_consistent (Sql.readings (DB.view (BMIApp.db app))) /\
  calculation_kept app.

(** What the program expects of the file it opens. *)
Definition usable_file (file : option Sql.tables) : Prop :=
  match file with
  | None => True
  | Some tb =>
      no_orphans tb /\ Forall category_consistent (Sql.readings tb) /\
      readings_ascending tb /\ (0 <= Sql.readings_seq tb)%Z
  end.





(** The arithmetic mean, as the specification words it. *)
Definition arithmetic_mean (l : list Q) : Q :=
  fold_right Qplus 0 l / inject_Z (Z.of_nat (length l)).



(** A platform for the examples: floats print with two decimals, pandas
    is absent. *)
Definition example_platform : Platform :=
  {| float_repr := Str.format_2f;
     PANDAS_AVAILABLE := false;
     linesep := String Str.LF EmptyString |}.


(* ================================================================== *)
(** ** What the application keeps of its users and readings *)

(** The ranges that [validate_inputs] accepts, by unit system. *)
Definition in_advisory_range (w h : Q) (mode : string) : Prop :=
  (mode = "metric" /\ 20 <= w /\ w <= 500 /\ 50 <= h /\ h <= 272) \/
  (mode <> "metric" /\ 44 <= w /\ w <= 1100 /\ 20 <= h /\ h <= 107).

(** The values that a calculation can show. *)
Definition plausible_bmi (bmi : Q) : Prop := 2.70 <= bmi /\ bmi <= 2000.

(** What holds of a reading that the application saved. *)
Definition saved_ok (r : Sql.reading) : Prop :=
  (Sql.r_unit r = "metric" \/ Sql.r_unit r = "imperial") /\
  Sql.r_notes r <> Some EmptyString /\
  plausible_bmi (Sql.r_bmi r).

(** Ids ascending and below the counter, names pairwise distinct. *)
Definition users_ok (tb : Sql.tables) : Prop :=
  ids_ascending (user_ids tb) (Sql.users_seq tb) /\
  (0 <= Sql.users_seq tb)%Z /\
  NoDup (map Sql.u_name (Sql.users tb)).

(** The connection holds no change that is not committed. *)
Definition committed (db : DB.t) : Prop :=
  exists older, DB.commits db = DB.view db :: older.

Definition engine_inv (app : BMIApp.t) : Prop :=
  Forall saved_ok (Sql.readings (DB.view (BMIApp.db app))) /\
  (forall bmi category,
     BMIApp.last_calculation app = Some (bmi, category) -> plausible_bmi bmi) /\
  (BMIApp.unit_mode app = "metric" \/ BMIApp.unit_mode app = "imperial") /\
  users_ok (DB.view (BMIApp.db app)) /\
  committed (BMIApp.db app).

(** A file that the application wrote. *)
Definition sound_file (file : option Sql.tables) : Prop :=
  match file with
  | None => True
  | Some tb => Forall saved_ok (Sql.readings tb) /\ users_ok tb
  end.

(** A user as the queries return it: [(id, name, dob)]. *)
Definition user_tuple (u : Sql.user) : Z * string * option string :=
  (Sql.u_id u, Sql.u_name u, Sql.u_dob u).

(** The events that write to the database. *)
Definition writes (ev : BMIApp.event) : bool :=
  match ev with
  | BMIApp.Add_user _ _ | BMIApp.Rename_user _ | BMIApp.Delete_user _
  | BMIApp.Save _ | BMIApp.Delete_readings _ _ => true
  | _ => false
  end.

(** The four categories in ascending order. *)
Definition category_rank (category : string) : nat :=
  if String.eqb category "Underweight" then 0
  else if String.eqb category "Normal" then 1
  else if String.eqb category "Overweight" then 2
  else 3.

(** A string of blanks only. *)
Fixpoint all_space (s : string) : bool :=
  match s with
  | EmptyString => true
  | String c rest => Str.isspace c && all_space rest
  end.

(* ================================================================== *)
(** * Properties *)

(** ** Numbers *)

Lemma lt_true_iff (x y : Q) : Py.lt x y = true <-> x < y.
Proof.
  unfold Py.lt. rewrite Qlt_alt.
  destruct (x ?= y); split; congruence.
Qed.

Lemma lt_false_iff (x y : Q) : Py.lt x y = false <-> y <= x.
Proof.
  unfold Py.lt. rewrite Qge_alt.
  destruct (x ?= y); split; congruence.
Qed.

Lemma le_true_iff (x y : Q) : Py.le x y = true <-> x <= y.
Proof.
  unfold Py.le. rewrite Qle_alt.
  destruct (x ?= y); split; congruence.
Qed.

Lemma le_false_iff (x y : Q) : Py.le x y = false <-> y < x.
Proof.
  unfold Py.le. rewrite Qgt_alt.
  destruct (x ?= y); split; congruence.
Qed.

Lemma div_nonzero (x y : Q) : ~ y == 0 -> Py.div x y = Ok (x / y).
Proof.
  intros Hy. unfold Py.div.
  destruct (Qeq_bool y 0) eqn:E; [|reflexivity].
  apply Qeq_bool_eq in E. contradiction.
Qed.


Lemma round_half_even_comp (x y : Q) :
  x == y -> round_half_even x = round_half_even y.
Proof.
  intros E. unfold round_half_even.
  rewrite (Qfloor_comp _ _ E).
  assert (C : (x - inject_Z (Qfloor y) ?= 1 # 2)
              = (y - inject_Z (Qfloor y) ?= 1 # 2)) by now rewrite E.
  now rewrite C.
Qed.

Lemma round_comp (x y : Q) (n : nat) : x == y -> Py.round x n = Py.round y n.
Proof.
  intros E. unfold Py.round. destruct n.
  - now rewrite (round_half_even_comp _ _ E).
  - f_equal. apply round_half_even_comp. now rewrite E.
Qed.

(** The rounded integer is within one half of its argument. *)
Lemma round_half_even_near (x : Q) :
  Qabs (inject_Z (round_half_even x) - x) <= 1 # 2.
Proof.
  unfold round_half_even.
  pose proof (Qfloor_le x) as Hlo.
  pose proof (Qlt_floor x) as Hhi.
  set (f := Qfloor x) in *.
  rewrite inject_Z_plus in Hhi. change (inject_Z 1) with 1 in Hhi.
  assert (Hup : Qabs (inject_Z (f + 1) - x) <= 1 # 2 <-> 1 # 2 <= x - inject_Z f).
  { rewrite inject_Z_plus. change (inject_Z 1) with 1.
    rewrite Qabs_pos by lra. lra. }
  assert (Hdn : Qabs (inject_Z f - x) <= 1 # 2 <-> x - inject_Z f <= 1 # 2).
  { rewrite Qabs_neg by lra. lra. }
  destruct (x - inject_Z f ?= 1 # 2) eqn:C.
  - apply Qeq_alt in C.
    destruct (Z.even f); [apply Hdn | apply Hup]; rewrite C; apply Qle_refl.
  - apply Qlt_alt in C. apply Hdn. now apply Qlt_le_weak.
  - apply Qgt_alt in C. apply Hup. now apply Qlt_le_weak.
Qed.


(* ================================================================== *)
(** ** Text *)

Example strip_example :
  Str.strip "  after lunch " = "after lunch" /\ Str.strip "   " = EmptyString.
Proof. split; reflexivity. Qed.

Example of_int_example :
  Str.of_int 0 = "0" /\ Str.of_int 1204 = "1204" /\ Str.of_int (-45) = "-45".
Proof. repeat split. Qed.

Example format_2f_example :
  Str.format_2f 25 = "25.00" /\ Str.format_2f 22.857 = "22.86" /\
  Str.format_2f (-3.14159) = "-3.14".
Proof. repeat split. Qed.

Example nocase_example : Str.nocase "AlIce" = "alice".
Proof. reflexivity. Qed.

(* ================================================================== *)
(** ** BMI utilities *)

Lemma metric_unit : String.eqb "metric" "metric" = true.
Proof. reflexivity. Qed.

Lemma other_unit (unit : string) :
  unit <> "metric" -> String.eqb unit "metric" = false.
Proof. intros H. now apply String.eqb_neq. Qed.

Lemma square_nonzero (h : Q) : ~ h == 0 -> ~ h * h == 0.
Proof.
  intros H E. apply Qmult_integral in E. tauto.
Qed.

(** The metric branch on a positive height. *)
Lemma calculate_bmi_metric (weight height : Q) :
  0 < height ->
  calculate_bmi weight height "metric" = Ok (spec_metric_bmi weight height).
Proof.
  intros Hh. unfold calculate_bmi, spec_metric_bmi.
  rewrite metric_unit.
  assert (Hle : Py.le height 0 = false) by now apply le_false_iff.
  rewrite Hle.
  assert (Hnz : ~ height == 0) by (intros E; rewrite E in Hh; discriminate).
  cbn [Py.bind].
  rewrite (div_nonzero height 100.0) by discriminate.
  cbn [Py.bind].
  assert (Hm : ~ height / 100.0 == 0).
  { intros E. apply Hnz.
    assert (E' : height == height / 100.0 * 100.0) by (field; discriminate).
    rewrite E', E. reflexivity. }
  rewrite div_nonzero by now apply square_nonzero.
  cbn [Py.bind]. f_equal. apply round_comp.
  field. exact Hnz.
Qed.

(** The other branch, whatever the unit string, on a non-zero height. *)
Lemma calculate_bmi_imperial (weight height : Q) (unit : string) :
  unit <> "metric" -> ~ height == 0 ->
  calculate_bmi weight height unit = Ok (spec_imperial_bmi weight height).
Proof.
  intros Hu Hnz. unfold calculate_bmi, spec_imperial_bmi.
  rewrite (other_unit _ Hu).
  rewrite div_nonzero by now apply square_nonzero.
  cbn [Py.bind]. f_equal. apply round_comp.
  field. exact Hnz.
Qed.


Example calculate_bmi_70_175 : calculate_bmi 70 175 "metric" = Ok 22.86.
Proof. reflexivity. Qed.

Example calculate_bmi_154_69 : calculate_bmi 154 69 "imperial" = Ok 22.74.
Proof. reflexivity. Qed.



Lemma bmi_category_cases (bmi : Q) :
  (bmi < 18.5 /\ bmi_category bmi = "Underweight") \/
  (18.5 <= bmi /\ bmi < 25.0 /\ bmi_category bmi = "Normal") \/
  (25.0 <= bmi /\ bmi < 30.0 /\ bmi_category bmi = "Overweight") \/
  (30.0 <= bmi /\ bmi_category bmi = "Obese").
Proof.
  unfold bmi_category.
  destruct (Py.lt bmi 18.5) eqn:E1.
  { left. split; [now apply lt_true_iff | reflexivity]. }
  apply lt_false_iff in E1.
  destruct (Py.lt bmi 25.0) eqn:E2.
  { right; left. apply lt_true_iff in E2. now repeat split. }
  apply lt_false_iff in E2.
  destruct (Py.lt bmi 30.0) eqn:E3.
  { right; right; left. apply lt_true_iff in E3. now repeat split. }
  apply lt_false_iff in E3.
  right; right; right. now split.
Qed.

(** C3: for every bmi, [bmi_category] returns 'Underweight' iff
    [bmi < 18.5], 'Normal' iff [18.5 <= bmi < 25.0], 'Overweight' iff
    [25.0 <= bmi < 30.0] and 'Obese' iff [bmi >= 30.0]; the boundary values
    18.5, 25.0 and 30.0 belong to the higher band. *)
Theorem bmi_category_bands (bmi : Q) :
  (bmi_category bmi = "Underweight" <-> bmi < 18.5) /\
  (bmi_category bmi = "Normal" <-> 18.5 <= bmi /\ bmi < 25.0) /\
  (bmi_category bmi = "Overweight" <-> 25.0 <= bmi /\ bmi < 30.0) /\
  (bmi_category bmi = "Obese" <-> 30.0 <= bmi) /\
  bmi_category 18.5 = "Normal" /\
  bmi_category 24.999 = "Normal" /\
  bmi_category 25.0 = "Overweight" /\
  bmi_category 30.0 = "Obese".
Proof.
  assert (Hb : bmi_category 18.5 = "Normal" /\
               bmi_category 24.999 = "Normal" /\
               bmi_category 25.0 = "Overweight" /\
               bmi_category 30.0 = "Obese") by (repeat split).
  destruct (bmi_category_cases bmi)
    as [[H1 E] | [[H1 [H2 E]] | [[H1 [H2 E]] | [H1 E]]]];
    rewrite E;
    (split; [|split; [|split; [|split; [|exact Hb]]]]);
    first [ split; [intros H; try discriminate H | intros H; exfalso; lra]
          | split; intros H; [try lra; tauto | reflexivity] ].
Qed.






(* ================================================================== *)
(** ** The SQL engine *)



Lemma string_ltb_leb (a b : string) : String.ltb a b = true -> String.leb a b = true.
Proof.
  unfold String.ltb, String.leb. now destruct (String.compare a b).
Qed.

Lemma string_ltb_false (a b : string) : String.ltb a b = false -> String.leb b a = true.
Proof.
  unfold String.ltb, String.leb. rewrite (String.compare_antisym b a).
  now destruct (String.compare a b).
Qed.



Section InsertionSort.

Variable A : Type.
Variable key : A -> string.
Variable ahead : string -> string -> bool.

Hypothesis ahead_le : forall a b, ahead a b = true -> String.leb a b = true.
Hypothesis behind_le : forall a b, ahead a b = false -> String.leb b a = true.

Lemma insert_by_perm (x : A) (l : list A) :
  Permutation (insert_by ahead key x l) (x :: l).
Proof.
  induction l as [|y l IH]; cbn [insert_by]; [reflexivity|].
  destruct (ahead (key y) (key x)); [|reflexivity].
  rewrite IH. apply perm_swap.
Qed.

Lemma insert_by_hd (a x : A) (l : list A) :
  key_le key a x -> HdRel (key_le key) a l ->
  HdRel (key_le key) a (insert_by ahead key x l).
Proof.
  intros Hax Hl. destruct l as [|y l]; cbn [insert_by].
  - now constructor.
  - destruct (ahead (key y) (key x)); constructor; [|assumption].
    now apply HdRel_inv in Hl.
Qed.

Lemma insert_by_sorted (x : A) (l : list A) :
  Sorted (key_le key) l -> Sorted (key_le key) (insert_by ahead key x l).
Proof.
  induction l as [|y l IH]; intros Hs; cbn [insert_by].
  - repeat constructor.
  - apply Sorted_inv in Hs. destruct Hs as [Hs Hhd].
    destruct (ahead (key y) (key x)) eqn:E.
    + constructor; [now apply IH|].
      apply insert_by_hd; [|assumption]. now apply ahead_le.
    + constructor; [now constructor|].
      constructor. now apply behind_le.
Qed.

Lemma insertion_sort_perm (l : list A) :
  Permutation (insertion_sort ahead key l) l.
Proof.
  induction l as [|x l IH]; cbn; [reflexivity|].
  fold (insertion_sort ahead key l).
  rewrite insert_by_perm. now constructor.
Qed.

Lemma insertion_sort_sorted (l : list A) :
  Sorted (key_le key) (insertion_sort ahead key l).
Proof.
  induction l as [|x l IH]; cbn; [constructor|].
  now apply insert_by_sorted.
Qed.

End InsertionSort.

Lemma stable_engine_ok : OrderBy_ok stable_engine.
Proof.
  intros A key rows. split.
  - apply insertion_sort_perm.
  - apply insertion_sort_sorted; [apply string_ltb_leb | apply string_ltb_false].
Qed.


(* ================================================================== *)
(** ** Users *)

Lemma name_taken_iff (name : string) (rows : list Sql.user) :
  Sql.name_taken name rows = true <-> In name (map Sql.u_name rows).
Proof.
  unfold Sql.name_taken. rewrite existsb_exists, in_map_iff.
  split; intros [u [H1 H2]]; exists u.
  - apply String.eqb_eq in H2. now split.
  - split; [assumption|]. now apply String.eqb_eq.
Qed.

Lemma add_user_duplicate (db : DB.t) (name : string) (dob : option string) :
  In name (map Sql.u_name (Sql.users (DB.view db))) ->
  DB.add_user db name dob = (db, None).
Proof.
  intros Hin. apply name_taken_iff in Hin.
  unfold DB.add_user, Sql.insert_user. now rewrite Hin.
Qed.

Lemma add_user_fresh (db : DB.t) (name : string) (dob : option string) :
  ~ In name (map Sql.u_name (Sql.users (DB.view db))) ->
  let uid := (Sql.users_seq (DB.view db) + 1)%Z in
  let tb := Sql.mk (Sql.users (DB.view db) ++ [Sql.mk_user uid name dob]) uid
                   (Sql.readings (DB.view db)) (Sql.readings_seq (DB.view db)) in
  DB.add_user db name dob = (DB.mk tb (tb :: DB.commits db), Some uid).
Proof.
  intros Hin. rewrite <- name_taken_iff in Hin.
  apply not_true_is_false in Hin.
  unfold DB.add_user, Sql.insert_user. now rewrite Hin.
Qed.

(** C4, as the claim states it, fails: the names are compared as they
    are, so "alice" after "Alice" is a new user, and so is a name that
    differs by surrounding blanks; through the dialog the blanks are
    stripped, the case is kept. *)
Lemma add_user_is_case_sensitive :
  let (db1, r1) := DB.add_user (DB.connect None) "Alice" None in
  let (db2, r2) := DB.add_user db1 "alice" None in
  let (db3, r3) := DB.add_user db2 " Alice " None in
  let app := @BMIApp.run stable_engine example_platform None
               [BMIApp.Add_user (Some "Alice") None;
                BMIApp.Add_user (Some "alice") None] in
  r1 = Some 1%Z /\ r2 = Some 2%Z /\ r3 = Some 3%Z /\
  map Sql.u_name (Sql.users (DB.view db3)) = ["Alice"; "alice"; " Alice "] /\
  map Sql.u_name (Sql.users (DB.view (BMIApp.db app))) = ["Alice"; "alice"].
Proof. vm_compute. repeat split. Qed.

(** C4 (amended): [add_user] fails, returning [None] and leaving the
    database as it is, whenever an existing user has the same name
    character for character; otherwise it appends the user under the next
    id, commits and returns that id.  The comparison is case-sensitive and
    [add_user] trims nothing: the dialog strips the name before the call. *)
Theorem add_user_unique (db : DB.t) (name : string) (dob : option string) :
  (In name (map Sql.u_name (Sql.users (DB.view db))) ->
   DB.add_user db name dob = (db, None)) /\
  (~ In name (map Sql.u_name (Sql.users (DB.view db))) ->
   exists db' uid,
     DB.add_user db name dob = (db', Some uid) /\
     uid = (Sql.users_seq (DB.view db) + 1)%Z /\
     Sql.users (DB.view db')
     = (Sql.users (DB.view db) ++ [Sql.mk_user uid name dob])%list /\
     Sql.readings (DB.view db') = Sql.readings (DB.view db) /\
     DB.commits db' = DB.view db' :: DB.commits db) /\
  (forall `{OrderBy} `{Platform} (app : BMIApp.t) (typed : string),
     BMIApp.db app = db -> Str.truthy typed = true -> Str.strip typed = name ->
     In name (map Sql.u_name (Sql.users (DB.view db))) ->
     BMIApp.add_user_dialog app (Some typed) dob
     = (app, Some (BMIApp.showwarning "Add User" "User already exists or invalid name"))).
Proof.
  split; [apply add_user_duplicate|]. split.
  - intros Hin. eexists. eexists.
    rewrite (add_user_fresh db name dob Hin). cbn.
    repeat split.
  - intros O P app typed Hdb Ht Hs Hin.
    unfold BMIApp.add_user_dialog. rewrite Ht. cbn [negb].
    rewrite Hs, Hdb, (add_user_duplicate db name dob Hin).
    destruct app; cbn in *. now subst.
Qed.

Lemma add_user_unique_witness :
  DB.add_user (fst (DB.add_user (DB.connect None) "Alice" None)) "Alice" None
  = (fst (DB.add_user (DB.connect None) "Alice" None), None).
Proof.
  apply (proj1 (add_user_unique
                  (fst (DB.add_user (DB.connect None) "Alice" None))
                  "Alice" None)).
  cbn. now left.
Defined.

(* ================================================================== *)
(** ** Saving a reading *)

Section App.

Context {O : OrderBy} {P : Platform}.

(** What the view-only methods leave alone. *)
Lemma refresh_user_list_frame (app : BMIApp.t) :
  BMIApp.db (BMIApp.refresh_user_list app) = BMIApp.db app /\
  BMIApp.selected_user_id (BMIApp.refresh_user_list app) = BMIApp.selected_user_id app /\
  BMIApp.last_calculation (BMIApp.refresh_user_list app) = BMIApp.last_calculation app.
Proof. now repeat split. Qed.

Lemma refresh_chart_frame (app : BMIApp.t) :
  BMIApp.db (BMIApp.refresh_chart app) = BMIApp.db app /\
  BMIApp.selected_user_id (BMIApp.refresh_chart app) = BMIApp.selected_user_id app /\
  BMIApp.users_map (BMIApp.refresh_chart app) = BMIApp.users_map app /\
  BMIApp.last_calculation (BMIApp.refresh_chart app) = BMIApp.last_calculation app.
Proof.
  unfold BMIApp.refresh_chart.
  destruct (BMIApp.no_user_selected app); [repeat split|].
  destruct (BMIApp.selected_user_id app) eqn:E; repeat split; exact E.
Qed.

Lemma validate_inputs_ok (app : BMIApp.t) (w h : Q) (mode : string) :
  BMIApp.validate_inputs app = Ok (w, h, mode) ->
  BMIApp.no_user_selected app = false /\
  BMIApp.weight_var app = Some w /\
  BMIApp.height_var app = Some h /\
  BMIApp.unit_mode app = mode.
Proof.
  unfold BMIApp.validate_inputs, BMIApp.parse_float.
  destruct (BMIApp.no_user_selected app); [discriminate|].
  destruct (BMIApp.weight_var app) as [w'|]; [|discriminate].
  destruct (BMIApp.height_var app) as [h'|]; [|discriminate].
  cbn [Py.bind].
  destruct (String.eqb (BMIApp.unit_mode app) "metric");
    repeat match goal with
      | |- context [BMIApp.in_range ?a ?b ?c] => destruct (BMIApp.in_range a b c)
      end;
    cbn [negb]; try discriminate;
    intros E; injection E as -> -> <-; now repeat split.
Qed.

Lemma calculate_action_ok (app app1 : BMIApp.t) :
  BMIApp.calculate_action app = (app1, None) ->
  exists w h bmi,
    BMIApp.no_user_selected app = false /\
    BMIApp.weight_var app = Some w /\
    BMIApp.height_var app = Some h /\
    calculate_bmi w h (BMIApp.unit_mode app) = Ok bmi /\
    app1 = BMIApp.show_result app bmi (bmi_category bmi).
Proof.
  unfold BMIApp.calculate_action.
  destruct (BMIApp.validate_inputs app) as [[[w h] mode]|e] eqn:V; [|discriminate].
  apply validate_inputs_ok in V. destruct V as [Hsel [Hw [Hh Hm]]]. subst mode.
  destruct (calculate_bmi w h (BMIApp.unit_mode app)) as [bmi|e] eqn:C; [|discriminate].
  intros E. injection E as <-.
  exists w, h, bmi. now repeat split.
Qed.

Lemma save_reading_appends (db : DB.t) (ts : string) (uid : Z)
    (weight height : Q) (unit : string) (bmi : Q) (category : string)
    (notes : option string) :
  let rid := (Sql.readings_seq (DB.view db) + 1)%Z in
  let tb := Sql.mk (Sql.users (DB.view db)) (Sql.users_seq (DB.view db))
              (Sql.readings (DB.view db) ++
                 [Sql.mk_reading rid uid ts weight height unit bmi category notes])
              rid in
  DB.save_reading db ts (Some uid) weight height unit bmi category notes
  = (DB.mk tb (tb :: DB.commits db), Ok rid).
Proof. reflexivity. Qed.

(** Saving right after a successful calculation. *)
Lemma save_after_calculate (app app1 : BMIApp.t) (ts : string) :
  BMIApp.calculate_action app = (app1, None) ->
  exists r,
    Sql.readings (DB.view (BMIApp.db (fst (BMIApp.save_action app1 ts))))
    = (Sql.readings (DB.view (BMIApp.db app)) ++ [r])%list /\
    BMIApp.selected_user_id app = Some (Sql.r_user_id r) /\
    Sql.r_timestamp r = ts /\
    BMIApp.weight_var app = Some (Sql.r_weight r) /\
    BMIApp.height_var app = Some (Sql.r_height r) /\
    BMIApp.unit_mode app = Sql.r_unit r /\
    calculate_bmi (Sql.r_weight r) (Sql.r_height r) (Sql.r_unit r) = Ok (Sql.r_bmi r) /\
    Sql.r_category r = bmi_category (Sql.r_bmi r).
Proof.
  intros C. apply calculate_action_ok in C.
  destruct C as [w [h [bmi [Hsel [Hw [Hh [Hc ->]]]]]]].
  unfold BMIApp.no_user_selected in Hsel.
  destruct (BMIApp.selected_user_id app) as [uid|] eqn:Es; [|discriminate].
  unfold BMIApp.save_action.
  cbn -[BMIApp.refresh_chart DB.save_reading].
  rewrite Hw, Hh, Es, save_reading_appends.
  cbn -[BMIApp.refresh_chart].
  rewrite (proj1 (refresh_chart_frame _)).
  cbn. eexists. split; [reflexivity|]. cbn. now repeat split.
Qed.

End App.

(* ================================================================== *)
(** ** The state of the application between two events *)

Lemma dict_get_set (d : list (string * Z)) (k k' : string) (v x : Z) :
  BMIApp.dict_get (BMIApp.dict_set d k v) k' = Some x ->
  x = v \/ BMIApp.dict_get d k' = Some x.
Proof.
  induction d as [|[k0 v0] d IH]; cbn [BMIApp.dict_set BMIApp.dict_get].
  - destruct (String.eqb k k'); [|discriminate].
    intros E. injection E as <-. now left.
  - destruct (String.eqb k0 k) eqn:E0; cbn [BMIApp.dict_get].
    + apply String.eqb_eq in E0. subst k0.
      destruct (String.eqb k k'); [|now right].
      intros E. injection E as <-. now left.
    + destruct (String.eqb k0 k'); [now right | exact IH].
Qed.

Lemma dict_of_users (users : list (Z * string * option string))
    (d : list (string * Z)) (k : string) (x : Z) :
  BMIApp.dict_get
    (fold_left (fun m u => let '(uid, name, dob) := u in BMIApp.dict_set m name uid)
               users d) k = Some x ->
  BMIApp.dict_get d k = Some x \/ In x (map (fun u => fst (fst u)) users).
Proof.
  revert d. induction users as [|[[uid name] dob] users IH]; intros d; cbn.
  - now left.
  - intros H. apply IH in H. destruct H as [H | H]; [|now right; right].
    apply dict_get_set in H. destruct H as [-> | H]; [right; now left | now left].
Qed.

Lemma insert_user_ok (tb tb' : Sql.tables) (name : string) (dob : option string)
    (uid : Z) :
  Sql.insert_user tb name dob = Ok (tb', uid) ->
  Sql.users tb' = (Sql.users tb ++ [Sql.mk_user uid name dob])%list /\
  Sql.readings tb' = Sql.readings tb.
Proof.
  unfold Sql.insert_user. destruct (Sql.name_taken name (Sql.users tb)); [discriminate|].
  intros E. injection E as <- <-. now split.
Qed.

Lemma update_user_name_ok (tb tb' : Sql.tables) (name : string) (uid : Z) :
  Sql.update_user_name tb name uid = Ok tb' ->
  user_ids tb' = user_ids tb /\ Sql.readings tb' = Sql.readings tb.
Proof.
  unfold Sql.update_user_name.
  match goal with |- context [if ?c then _ else _] => destruct c end; [discriminate|].
  intros E. injection E as <-. split; [|reflexivity].
  unfold user_ids. cbn. rewrite map_map. apply map_ext.
  intros u. unfold Sql.rename. now destruct (Sql.u_id u =? uid)%Z.
Qed.

Lemma delete_readings_subset (sel : list Z) (db : DB.t) :
  let c := fold_left (fun c iid => DB.execute c (Sql.delete_reading (DB.view c) iid))
                     sel db in
  Sql.users (DB.view c) = Sql.users (DB.view db) /\
  incl (Sql.readings (DB.view c)) (Sql.readings (DB.view db)).
Proof.
  revert db. induction sel as [|iid sel IH]; intros db; cbn.
  - split; [reflexivity | apply incl_refl].
  - destruct (IH (DB.execute db (Sql.delete_reading (DB.view db) iid))) as [Hu Hr].
    cbn in Hu, Hr. split; [exact Hu|].
    intros r Hin. apply Hr in Hin. now apply filter_In in Hin.
Qed.

Section AppInvariant.

Context {O : OrderBy} {P : Platform}.
Hypothesis engine_ok : OrderBy_ok O.

Lemma list_users_ids (db : DB.t) (u : Z * string * option string) :
  In u (DB.list_users db) -> In (fst (fst u)) (user_ids (DB.view db)).
Proof.
  unfold DB.list_users. rewrite in_map_iff. intros [x [<- Hin]]. cbn.
  destruct (engine_ok _ (fun u => Str.nocase (Sql.u_name u)) (Sql.users (DB.view db)))
    as [Hperm _].
  apply (Permutation_in _ Hperm) in Hin.
  unfold user_ids. now apply in_map.
Qed.

Lemma app_inv_refresh_chart (app : BMIApp.t) :
  app_inv app -> app_inv (BMIApp.refresh_chart app).
Proof.
  unfold app_inv, selection_valid, calculation_kept.
  destruct (refresh_chart_frame app) as [E1 [E2 [E3 E4]]].
  now rewrite E1, E2, E3, E4.
Qed.

Lemma app_inv_refresh_user_list (app : BMIApp.t) :
  no_orphans (DB.view (BMIApp.db app)) ->
  (forall uid, BMIApp.selected_user_id app = Some uid ->
               In uid (user_ids (DB.view (BMIApp.db app)))) ->
  Forall category_consistent (Sql.readings (DB.view (BMIApp.db app))) ->
  calculation_kept app ->
  app_inv (BMIApp.refresh_user_list app).
Proof.
  intros H1 H2 H3 H4. split; [exact H1|]. split; [|split; [exact H3 | exact H4]].
  split; [exact H2|].
  intros name uid Hget. cbn in Hget.
  apply dict_of_users in Hget. destruct Hget as [Hget | Hget]; [discriminate|].
  apply in_map_iff in Hget. destruct Hget as [u [<- Hin]].
  now apply list_users_ids.
Qed.

Lemma app_inv_on_user_select (app : BMIApp.t) (sel : option nat) :
  app_inv app -> app_inv (BMIApp.on_user_select app sel).
Proof.
  intros Hinv. unfold BMIApp.on_user_select.
  destruct sel as [i|]; [|exact Hinv].
  destruct (nth_error (BMIApp.user_listbox app) i) as [display|]; [|exact Hinv].
  apply app_inv_refresh_chart.
  destruct Hinv as [H1 [[H2 H2'] [H3 H4]]].
  split; [exact H1|]. split; [|split; [exact H3 | exact H4]].
  split; [|exact H2'].
  intros uid Hsel. cbn in Hsel. now apply H2' in Hsel.
Qed.

Lemma app_inv_add_user_dialog (app : BMIApp.t) (name dob : option string) :
  app_inv app -> app_inv (fst (BMIApp.add_user_dialog app name dob)).
Proof.
  intros Hinv. unfold BMIApp.add_user_dialog.
  destruct name as [name|]; [|exact Hinv].
  destruct (Str.truthy name); cbn [negb]; [|exact Hinv].
  unfold DB.add_user.
  destruct (Sql.insert_user (DB.view (BMIApp.db app)) (Str.strip name) dob)
    as [[tb uid]|e] eqn:E; cbn [fst].
  - apply insert_user_ok in E. destruct E as [Eu Er].
    destruct Hinv as [H1 [[H2 _] [H3 H4]]].
    assert (Hids : forall i, In i (user_ids (DB.view (BMIApp.db app))) ->
                             In i (user_ids tb)).
    { intros i Hi. unfold user_ids in *. rewrite Eu, map_app.
      apply in_or_app. now left. }
    apply app_inv_refresh_user_list; cbn.
    + intros r Hr. rewrite Er in Hr. apply Hids. now apply H1.
    + intros i Hi. apply Hids. now apply H2.
    + now rewrite Er.
    + exact H4.
  - destruct app; exact Hinv.
Qed.

Lemma app_inv_rename_user_dialog (app : BMIApp.t) (newname : option string) :
  app_inv app -> app_inv (fst (BMIApp.rename_user_dialog app newname)).
Proof.
  intros Hinv. unfold BMIApp.rename_user_dialog.
  destruct (BMIApp.no_user_selected app); [exact Hinv|].
  destruct (BMIApp.selected_user_id app) as [uid|] eqn:Es; [|exact Hinv].
  destruct (DB.get_user (BMIApp.db app) uid); [|exact Hinv].
  destruct newname as [newname|]; [|exact Hinv].
  destruct (Str.truthy newname); cbn [negb]; [|exact Hinv].
  destruct (Sql.update_user_name (DB.view (BMIApp.db app)) (Str.strip newname) uid)
    as [tb|e] eqn:E; cbn [fst]; [|exact Hinv].
  apply update_user_name_ok in E. destruct E as [Eu Er].
  destruct Hinv as [H1 [[H2 _] [H3 H4]]].
  apply app_inv_refresh_user_list; cbn.
  - intros r Hr. rewrite Er in Hr. rewrite Eu. now apply H1.
  - intros i Hi. rewrite Eu. apply H2. now rewrite <- Hi.
  - now rewrite Er.
  - exact H4.
Qed.

Lemma app_inv_delete_user (app : BMIApp.t) (confirm : bool) :
  app_inv app -> app_inv (fst (BMIApp.delete_user app confirm)).
Proof.
  intros Hinv. unfold BMIApp.delete_user.
  destruct (BMIApp.no_user_selected app); [exact Hinv|].
  destruct (BMIApp.selected_user_id app) as [uid|] eqn:Es; [|exact Hinv].
  destruct confirm; cbn [negb fst]; [|exact Hinv].
  destruct Hinv as [H1 [_ [H3 H4]]].
  assert (Hinv' : app_inv
            (BMIApp.refresh_user_list
               (BMIApp.with_selected_user_id
                  (BMIApp.with_db app
                     (DB.commit
                        (DB.execute
                           (DB.execute (BMIApp.db app)
                              (Sql.delete_readings_of (DB.view (BMIApp.db app)) uid))
                           (Sql.delete_user
                              (Sql.delete_readings_of (DB.view (BMIApp.db app)) uid)
                              uid))))
                  None))).
  { apply app_inv_refresh_user_list; cbn.
    - intros r Hr. cbn in Hr. apply filter_In in Hr. destruct Hr as [Hr Hne].
      unfold user_ids. cbn. apply H1 in Hr. unfold user_ids in Hr.
      apply in_map_iff in Hr. destruct Hr as [u [Hu Hin]].
      apply in_map_iff. exists u. split; [exact Hu|].
      apply filter_In. split; [exact Hin|]. now rewrite Hu.
    - discriminate.
    - apply Forall_forall. intros r Hr. apply filter_In in Hr.
      rewrite Forall_forall in H3. now apply H3.
    - exact H4. }
  exact Hinv'.
Qed.

Lemma app_inv_calculate_action (app : BMIApp.t) :
  app_inv app -> app_inv (fst (BMIApp.calculate_action app)).
Proof.
  intros Hinv.
  destruct (BMIApp.calculate_action app) as [app1 [d|]] eqn:E; cbn [fst].
  - unfold BMIApp.calculate_action in E.
    destruct (BMIApp.validate_inputs app) as [[[w h] mode]|e];
      [|now injection E as <- _].
    destruct (calculate_bmi w h mode); [discriminate | now injection E as <- _].
  - apply calculate_action_ok in E.
    destruct E as [w [h [bmi [_ [_ [_ [Hc ->]]]]]]].
    destruct Hinv as [H1 [H2 [H3 _]]].
    split; [exact H1|]. split; [exact H2|]. split; [exact H3|].
    intros b c Hl. cbn in Hl. injection Hl as <- <-.
    split; [reflexivity|]. now exists w, h, (BMIApp.unit_mode app).
Qed.

Lemma app_inv_save_action (app : BMIApp.t) (ts : string) :
  app_inv app -> app_inv (fst (BMIApp.save_action app ts)).
Proof.
  intros Hinv. unfold BMIApp.save_action.
  destruct (BMIApp.last_calculation app) as [[bmi category]|] eqn:El; [|exact Hinv].
  destruct (BMIApp.weight_var app) as [w|]; [|exact Hinv].
  destruct (BMIApp.height_var app) as [h|]; [|exact Hinv].
  destruct (BMIApp.selected_user_id app) as [uid|] eqn:Es.
  - rewrite save_reading_appends. cbn [fst].
    apply app_inv_refresh_chart.
    destruct Hinv as [H1 [[H2 H2'] [H3 H4]]].
    split; [|split; [split|split]]; cbn.
    + intros r Hr. cbn in Hr. apply in_app_or in Hr.
      destruct Hr as [Hr | [<- | []]]; [now apply H1 | now apply H2].
    + intros i Hi. apply H2. now rewrite <- Hi.
    + exact H2'.
    + apply Forall_app. split; [exact H3|].
      constructor; [|constructor]. now apply H4 in El.
    + exact H4.
  - cbn. destruct app; exact Hinv.
Qed.

Lemma app_inv_delete_selected_reading (app : BMIApp.t) (sel : list Z)
    (confirm : bool) :
  app_inv app -> app_inv (fst (BMIApp.delete_selected_reading app sel confirm)).
Proof.
  intros Hinv. unfold BMIApp.delete_selected_reading.
  destruct sel as [|iid sel]; [exact Hinv|].
  destruct confirm; cbn [negb fst]; [|exact Hinv].
  apply app_inv_refresh_chart.
  destruct (delete_readings_subset (iid :: sel) (BMIApp.db app)) as [Hu Hr].
  destruct Hinv as [H1 [[H2 H2'] [H3 H4]]].
  cbv zeta in Hu, Hr.
  split; [|split; [split|split]]; unfold no_orphans, user_ids in *;
    cbn [BMIApp.db BMIApp.with_db BMIApp.selected_user_id BMIApp.users_map
         DB.view DB.commit]; rewrite ?Hu.
  - intros r Hin. apply H1. now apply Hr.
  - exact H2.
  - exact H2'.
  - apply Forall_forall. intros r Hin. rewrite Forall_forall in H3.
    apply H3. now apply Hr.
  - exact H4.
Qed.

Lemma app_inv_step (app : BMIApp.t) (ev : BMIApp.event) :
  app_inv app -> app_inv (BMIApp.step app ev).
Proof.
  intros Hinv. destruct ev; cbn [BMIApp.step].
  - exact Hinv.
  - exact Hinv.
  - now apply app_inv_on_user_select.
  - now apply app_inv_add_user_dialog.
  - now apply app_inv_rename_user_dialog.
  - now apply app_inv_delete_user.
  - now apply app_inv_calculate_action.
  - now apply app_inv_save_action.
  - now apply app_inv_delete_selected_reading.
Qed.

Lemma app_inv_init (file : option Sql.tables) :
  usable_file file -> app_inv (BMIApp.init file).
Proof.
  intros Hf. unfold BMIApp.init.
  apply app_inv_refresh_user_list; cbn.
  - destruct file as [tb|]; [apply Hf | intros r []].
  - discriminate.
  - destruct file as [tb|]; [apply Hf | constructor].
  - intros b c Hl. discriminate Hl.
Qed.

Lemma app_inv_run (file : option Sql.tables) (evs : list BMIApp.event) :
  usable_file file -> app_inv (BMIApp.run file evs).
Proof.
  intros Hf. unfold BMIApp.run.
  assert (G : forall app, app_inv app -> app_inv (fold_left BMIApp.step evs app)).
  { induction evs as [|ev evs IH]; intros app Ha; cbn; [exact Ha|].
    apply IH. now apply app_inv_step. }
  apply G. now apply app_inv_init.
Qed.

End AppInvariant.

(** C1, as the claim states it, fails: [save_reading] takes the bmi and
    the category from its caller and stores them as given. *)
Lemma save_reading_stores_what_it_is_given :
  let db0 := fst (DB.add_user (DB.connect None) "Alice" None) in
  let (db1, rid) :=
    DB.save_reading db0 "2024-05-01T08:00:00" (Some 1%Z) 70 175 "metric" 99.9
                    "Obese" None in
  rid = Ok 1%Z /\
  map (fun r => (Sql.r_weight r, Sql.r_height r, Sql.r_unit r, Sql.r_bmi r,
                 Sql.r_category r))
      (Sql.readings (DB.view db1))
  = [(70, 175, "metric", 99.9, "Obese")] /\
  calculate_bmi 70 175 "metric" = Ok 22.86 /\
  bmi_category 22.86 = "Normal".
Proof. vm_compute. repeat split. Qed.

(** What [save_action] stores when the weight is edited between the
    calculation and the save: the new weight with the bmi of the old. *)
Example save_action_after_edit :
  let app := @BMIApp.run stable_engine example_platform None
               [BMIApp.Add_user (Some "Alice") None;
                BMIApp.Select_user (Some 0%nat);
                BMIApp.Edit_inputs (Some 70) (Some 175) EmptyString;
                BMIApp.Calculate;
                BMIApp.Edit_inputs (Some 100) (Some 175) EmptyString;
                BMIApp.Save "2024-05-01T08:00:00"] in
  map (fun r => (Sql.r_user_id r, Sql.r_weight r, Sql.r_height r, Sql.r_unit r,
                 Sql.r_bmi r, Sql.r_category r))
      (Sql.readings (DB.view (BMIApp.db app)))
  = [(1%Z, 100, 175, "metric", 22.86, "Normal")].
Proof. vm_compute. reflexivity. Qed.

(** C1 (amended): [save_reading] stores the bmi and the category that its
    caller passes, as given, beside the weight, height and unit; it
    computes neither.  Its caller [save_action] passes the pair kept from
    the last successful calculation: saved right after that calculation,
    the stored bmi is [calculate_bmi] of the stored weight, height and
    unit; and every reading saved through the application has the
    category of its stored bmi. *)
Theorem save_reading_keeps_callers_values {O : OrderBy} {P : Platform} :
  (forall db ts uid weight height unit bmi category notes,
     exists db' rid,
       DB.save_reading db ts (Some uid) weight height unit bmi category notes
       = (db', Ok rid) /\
       Sql.readings (DB.view db')
       = (Sql.readings (DB.view db) ++
            [Sql.mk_reading rid uid ts weight height unit bmi category notes])%list) /\
  (forall app app1 ts,
     BMIApp.calculate_action app = (app1, None) ->
     exists r,
       Sql.readings (DB.view (BMIApp.db (fst (BMIApp.save_action app1 ts))))
       = (Sql.readings (DB.view (BMIApp.db app)) ++ [r])%list /\
       BMIApp.weight_var app = Some (Sql.r_weight r) /\
       BMIApp.height_var app = Some (Sql.r_height r) /\
       BMIApp.unit_mode app = Sql.r_unit r /\
       calculate_bmi (Sql.r_weight r) (Sql.r_height r) (Sql.r_unit r)
       = Ok (Sql.r_bmi r) /\
       Sql.r_category r = bmi_category (Sql.r_bmi r)) /\
  (OrderBy_ok O ->
   forall file evs,
     usable_file file ->
     Forall category_consistent
            (Sql.readings (DB.view (BMIApp.db (BMIApp.run file evs))))).
Proof.
  split; [|split].
  - intros. eexists. eexists. rewrite save_reading_appends. cbn.
    split; reflexivity.
  - intros app app1 ts Hc.
    destruct (save_after_calculate app app1 ts Hc)
      as [r [H1 [_ [_ [H2 [H3 [H4 [H5 H6]]]]]]]].
    exists r. now repeat split.
  - intros HO file evs Hf. now apply (app_inv_run HO file evs Hf).
Qed.

Lemma save_reading_keeps_callers_values_witness :
  Forall category_consistent
    (Sql.readings
       (DB.view
          (BMIApp.db
             (@BMIApp.run stable_engine example_platform None
                [BMIApp.Add_user (Some "Alice") None;
                 BMIApp.Select_user (Some 0%nat);
                 BMIApp.Edit_inputs (Some 70) (Some 175) EmptyString;
                 BMIApp.Calculate;
                 BMIApp.Save "2024-05-01T08:00:00"])))).
Proof.
  exact (proj2 (proj2 (@save_reading_keeps_callers_values
                         stable_engine example_platform))
           stable_engine_ok None _ I).
Defined.

(* ================================================================== *)
(** ** Deleting a user *)

Lemma filter_all {A : Type} (f : A -> bool) (l : list A) :
  (forall x, In x l -> f x = true) -> filter f l = l.
Proof.
  induction l as [|x l IH]; intros H; cbn; [reflexivity|].
  rewrite (H x (or_introl eq_refl)). f_equal. apply IH.
  intros y Hy. apply H. now right.
Qed.


Section DeleteUser.

Context {O : OrderBy} {P : Platform}.

Variable app : BMIApp.t.
Variable uid : Z.
Hypothesis selected : BMIApp.selected_user_id app = Some uid.
Hypothesis nonzero : uid <> 0%Z.

Local Abbreviation before := (DB.view (BMIApp.db app)).
Local Abbreviation after := (DB.view (BMIApp.db (fst (BMIApp.delete_user app true)))).

Lemma delete_user_result :
  BMIApp.delete_user app true
  = (BMIApp.with_stats_label
       (BMIApp.refresh_user_list
          (BMIApp.with_selected_user_id
             (BMIApp.with_db app
                (DB.commit
                   (DB.execute
                      (DB.execute (BMIApp.db app) (Sql.delete_readings_of before uid))
                      (Sql.delete_user (Sql.delete_readings_of before uid) uid))))
             None))
       "No user selected",
     None).
Proof.
  unfold BMIApp.delete_user, BMIApp.no_user_selected. rewrite selected.
  apply Z.eqb_neq in nonzero. now rewrite nonzero.
Qed.

Lemma delete_user_tables :
  Sql.users after
  = filter (fun u => negb (Sql.u_id u =? uid)%Z) (Sql.users before) /\
  Sql.readings after
  = filter (fun r => negb (Sql.r_user_id r =? uid)%Z) (Sql.readings before) /\
  Sql.users_seq after = Sql.users_seq before /\
  Sql.readings_seq after = Sql.readings_seq before /\
  DB.commits (BMIApp.db (fst (BMIApp.delete_user app true)))
  = after :: DB.commits (BMIApp.db app).
Proof.
  rewrite delete_user_result. now repeat split.
Qed.




End DeleteUser.


(** Outside the claims: [DB.save_reading] called with the id of no user
    inserts the row, the foreign key not being enforced. *)
Example save_reading_for_unknown_user :
  let (db1, rid) :=
    DB.save_reading (DB.connect None) "2024-05-01T08:00:00" (Some 999%Z) 70 175
                    "metric" 22.86 "Normal" None in
  rid = Ok 1%Z /\
  map Sql.r_user_id (Sql.readings (DB.view db1)) = [999%Z] /\
  Sql.users (DB.view db1) = [].
Proof. vm_compute. repeat split. Qed.



(* ================================================================== *)
(** ** The order of a history *)


Lemma Sorted_map {A B : Type} (f : A -> B) (R : B -> B -> Prop) (l : list A) :
  Sorted (fun x y => R (f x) (f y)) l -> Sorted R (map f l).
Proof.
  induction 1 as [|x l Hs IH Hhd]; cbn; constructor; [exact IH|].
  destruct Hhd; cbn; now constructor.
Qed.




Section History.

Context {O : OrderBy}.
Hypothesis engine_ok : OrderBy_ok O.

Variable db : DB.t.
Variable user_id : Z.




End History.






(** The ids of the readings stay in ascending order along the table. *)
Lemma ids_ascending_snoc (ids : list Z) (seq : Z) :
  (0 <= seq)%Z -> ids_ascending ids seq ->
  ids_ascending (ids ++ [(seq + 1)%Z]) (seq + 1).
Proof.
  intros Hseq [Hs Hb]. split.
  - induction Hs as [|i ids Hs IH Hall]; cbn.
    + repeat constructor.
    + apply Forall_cons_iff in Hb. destruct Hb as [Hi Hb].
      constructor; [now apply IH|].
      apply Forall_app. split; [exact Hall|].
      constructor; [lia | constructor].
  - apply Forall_app. split.
    + eapply Forall_impl; [|exact Hb]. cbn. intros i Hi. lia.
    + constructor; [lia | constructor].
Qed.





Section Ascending.

Context {O : OrderBy} {P : Platform}.




End Ascending.




(* ================================================================== *)
(** ** Statistics *)

Lemma py_sum_from (l : list Q) (a : Q) :
  fold_left Qplus l a == a + fold_right Qplus 0 l.
Proof.
  revert a. induction l as [|x l IH]; intros a; cbn.
  - ring.
  - rewrite IH. ring.
Qed.

Lemma py_sum_spec (l : list Q) : py_sum l == fold_right Qplus 0 l.
Proof. unfold py_sum. rewrite py_sum_from. ring. Qed.

Lemma fold_min_spec (rest : list Q) (m0 : Q) :
  let m := fold_left (fun m y => if Py.lt y m then y else m) rest m0 in
  (m = m0 \/ In m rest) /\ m <= m0 /\ Forall (fun y => m <= y) rest.
Proof.
  revert m0. induction rest as [|y rest IH]; intros m0; cbn.
  - split; [now left|]. split; [apply Qle_refl | constructor].
  - destruct (Py.lt y m0) eqn:E.
    + apply lt_true_iff in E.
      destruct (IH y) as [[H1 | H1] [H2 H3]]; cbn in *.
      * split; [right; now left|]. split; [|constructor; assumption].
        apply Qle_trans with y; [assumption | now apply Qlt_le_weak].
      * split; [right; now right|]. split; [|constructor; assumption].
        apply Qle_trans with y; [assumption | now apply Qlt_le_weak].
    + apply lt_false_iff in E.
      destruct (IH m0) as [[H1 | H1] [H2 H3]]; cbn in *.
      * split; [now left|]. split; [assumption|]. constructor; [|assumption].
        now apply Qle_trans with m0.
      * split; [right; now right|]. split; [assumption|].
        constructor; [|assumption]. now apply Qle_trans with m0.
Qed.

Lemma fold_max_spec (rest : list Q) (m0 : Q) :
  let m := fold_left (fun m y => if Py.lt m y then y else m) rest m0 in
  (m = m0 \/ In m rest) /\ m0 <= m /\ Forall (fun y => y <= m) rest.
Proof.
  revert m0. induction rest as [|y rest IH]; intros m0; cbn.
  - split; [now left|]. split; [apply Qle_refl | constructor].
  - destruct (Py.lt m0 y) eqn:E.
    + apply lt_true_iff in E.
      destruct (IH y) as [[H1 | H1] [H2 H3]]; cbn in *.
      * split; [right; now left|]. split; [|constructor; assumption].
        apply Qle_trans with y; [now apply Qlt_le_weak | assumption].
      * split; [right; now right|]. split; [|constructor; assumption].
        apply Qle_trans with y; [now apply Qlt_le_weak | assumption].
    + apply lt_false_iff in E.
      destruct (IH m0) as [[H1 | H1] [H2 H3]]; cbn in *.
      * split; [now left|]. split; [assumption|]. constructor; [|assumption].
        now apply Qle_trans with m0.
      * split; [right; now right|]. split; [assumption|].
        constructor; [|assumption]. now apply Qle_trans with m0.
Qed.

Lemma py_min_spec (x : Q) (rest : list Q) :
  exists m, py_min (x :: rest) = Ok m /\
            In m (x :: rest) /\ Forall (fun y => m <= y) (x :: rest).
Proof.
  eexists. split; [reflexivity|].
  destruct (fold_min_spec rest x) as [[H1 | H1] [H2 H3]]; cbn in *.
  - split; [left; now symmetry | now constructor].
  - split; [now right | now constructor].
Qed.

Lemma py_max_spec (x : Q) (rest : list Q) :
  exists m, py_max (x :: rest) = Ok m /\
            In m (x :: rest) /\ Forall (fun y => y <= m) (x :: rest).
Proof.
  eexists. split; [reflexivity|].
  destruct (fold_max_spec rest x) as [[H1 | H1] [H2 H3]]; cbn in *.
  - split; [left; now symmetry | now constructor].
  - split; [now right | now constructor].
Qed.

Lemma py_len_nonzero {A : Type} (x : A) (l : list A) : ~ py_len (x :: l) == 0.
Proof.
  unfold py_len, Qeq. cbn [Qnum Qden inject_Z length]. lia.
Qed.

Lemma stats_nonempty (x : Q) (rest : list Q) :
  exists mean_bmi min_bmi max_bmi,
    BMIApp.stats (x :: rest) = Ok (mean_bmi, min_bmi, max_bmi, last rest x) /\
    mean_bmi == arithmetic_mean (x :: rest) /\
    (In min_bmi (x :: rest) /\ Forall (fun y => min_bmi <= y) (x :: rest)) /\
    (In max_bmi (x :: rest) /\ Forall (fun y => y <= max_bmi) (x :: rest)).
Proof.
  destruct (py_min_spec x rest) as [mn [Emn Hmn]].
  destruct (py_max_spec x rest) as [mx [Emx Hmx]].
  exists (py_sum (x :: rest) / py_len (x :: rest)), mn, mx.
  split; [|split; [|split; assumption]].
  - unfold BMIApp.stats.
    rewrite (div_nonzero _ _ (py_len_nonzero x rest)). cbn [Py.bind].
    rewrite Emn. cbn [Py.bind]. rewrite Emx. reflexivity.
  - unfold arithmetic_mean. rewrite py_sum_spec. reflexivity.
Qed.





(* ================================================================== *)
(** ** Export *)

















(* ================================================================== *)
(** ** Validation and calculation *)

Lemma round2_between (x : Q) (p q : Z) :
  Qmake p 100 <= x -> x <= Qmake q 100 ->
  Qmake p 100 <= Py.round x 2 /\ Py.round x 2 <= Qmake q 100.
Proof.
  intros Hp Hq.
  pose proof (round_half_even_near (x * inject_Z 100)) as H.
  change (Py.round x 2) with (Qmake (Py.round_half_even (x * inject_Z 100)) 100).
  set (n := Py.round_half_even (x * inject_Z 100)) in *.
  apply Qabs_Qle_condition in H. destruct H as [Hlo Hhi].
  assert (Hp' : inject_Z p <= x * inject_Z 100).
  { rewrite (Qmake_Qdiv p 100) in Hp. change (inject_Z (Zpos 100)) with 100 in Hp.
    change (inject_Z 100) with 100.
    assert (E : inject_Z p == inject_Z p / 100 * 100) by (field; discriminate).
    rewrite E. apply Qmult_le_compat_r; [exact Hp | discriminate]. }
  assert (Hq' : x * inject_Z 100 <= inject_Z q).
  { rewrite (Qmake_Qdiv q 100) in Hq. change (inject_Z (Zpos 100)) with 100 in Hq.
    change (inject_Z 100) with 100.
    assert (E : inject_Z q == inject_Z q / 100 * 100) by (field; discriminate).
    rewrite E. apply Qmult_le_compat_r; [exact Hq | discriminate]. }
  assert (L1 : inject_Z p - (1 # 2) <= inject_Z n) by lra.
  assert (L2 : inject_Z n <= inject_Z q + (1 # 2)) by lra.
  unfold Qle in L1, L2. cbn in L1, L2.
  unfold Qle. cbn. split; lia.
Qed.

Lemma validate_inputs_range (app : BMIApp.t) (w h : Q) (mode : string) :
  BMIApp.validate_inputs app = Ok (w, h, mode) -> in_advisory_range w h mode.
Proof.
  unfold BMIApp.validate_inputs, BMIApp.parse_float.
  destruct (BMIApp.no_user_selected app); [discriminate|].
  destruct (BMIApp.weight_var app) as [w'|]; [|discriminate].
  destruct (BMIApp.height_var app) as [h'|]; [|discriminate].
  cbn [Py.bind]. unfold BMIApp.in_range.
  destruct (String.eqb (BMIApp.unit_mode app) "metric") eqn:Em.
  - destruct (Py.le 20 w') eqn:E1; [|discriminate].
    destruct (Py.le w' 500) eqn:E2; [|discriminate].
    destruct (Py.le 50 h') eqn:E3; [|discriminate].
    destruct (Py.le h' 272) eqn:E4; [|discriminate].
    cbn. intros E. injection E as <- <- <-.
    apply le_true_iff in E1, E2, E3, E4. apply String.eqb_eq in Em.
    left. now repeat split.
  - destruct (Py.le 44 w') eqn:E1; [|discriminate].
    destruct (Py.le w' 1100) eqn:E2; [|discriminate].
    destruct (Py.le 20 h') eqn:E3; [|discriminate].
    destruct (Py.le h' 107) eqn:E4; [|discriminate].
    cbn. intros E. injection E as <- <- <-.
    apply le_true_iff in E1, E2, E3, E4. apply String.eqb_neq in Em.
    right. now repeat split.
Qed.

Lemma square_bounds (lo hi h : Q) :
  0 <= lo -> lo <= h -> h <= hi -> lo * lo <= h * h /\ h * h <= hi * hi.
Proof.
  intros H0 H1 H2. split; nra.
Qed.

Lemma range_bmi (w h : Q) (mode : string) :
  in_advisory_range w h mode ->
  exists bmi, calculate_bmi w h mode = Ok bmi /\ plausible_bmi bmi.
Proof.
  intros [[-> [Hw1 [Hw2 [Hh1 Hh2]]]] | [Hm [Hw1 [Hw2 [Hh1 Hh2]]]]].
  - exists (spec_metric_bmi w h). split; [apply calculate_bmi_metric; lra|].
    destruct (square_bounds 50 272 h) as [S1 S2]; try lra.
    assert (Hd : 0 < (h / 100) ^ 2).
    { assert (E : (h / 100) ^ 2 == h * h * (1 # 10000)) by (field; discriminate).
      rewrite E. lra. }
    destruct (round2_between (w / (h / 100) ^ 2) 270 200000) as [B1 B2].
    + apply Qle_shift_div_l; [exact Hd|].
      assert (E : (h / 100) ^ 2 == h * h * (1 # 10000)) by (field; discriminate).
      rewrite E. lra.
    + apply Qle_shift_div_r; [exact Hd|].
      assert (E : (h / 100) ^ 2 == h * h * (1 # 10000)) by (field; discriminate).
      rewrite E. lra.
    + unfold plausible_bmi, spec_metric_bmi. split; lra.
  - exists (spec_imperial_bmi w h).
    split; [apply calculate_bmi_imperial; [exact Hm | intros E; rewrite E in Hh1; lra]|].
    destruct (square_bounds 20 107 h) as [S1 S2]; try lra.
    assert (Hd : 0 < h ^ 2).
    { assert (E : h ^ 2 == h * h) by ring. rewrite E. lra. }
    destruct (round2_between (703 * w / h ^ 2) 270 200000) as [B1 B2].
    + apply Qle_shift_div_l; [exact Hd|].
      assert (E : h ^ 2 == h * h) by ring. rewrite E. lra.
    + apply Qle_shift_div_r; [exact Hd|].
      assert (E : h ^ 2 == h * h) by ring. rewrite E. lra.
    + unfold plausible_bmi, spec_imperial_bmi. split; lra.
Qed.

Lemma calculate_action_cases {P : Platform} (app : BMIApp.t) :
  (exists e, BMIApp.validate_inputs app = Raise e /\
             BMIApp.calculate_action app
             = (app, Some (BMIApp.showerror "Input error" (exn_str e)))) \/
  (exists w h bmi,
     BMIApp.validate_inputs app = Ok (w, h, BMIApp.unit_mode app) /\
     in_advisory_range w h (BMIApp.unit_mode app) /\
     calculate_bmi w h (BMIApp.unit_mode app) = Ok bmi /\
     plausible_bmi bmi /\
     BMIApp.calculate_action app
     = (BMIApp.show_result app bmi (bmi_category bmi), None)).
Proof.
  unfold BMIApp.calculate_action.
  destruct (BMIApp.validate_inputs app) as [[[w h] mode]|e] eqn:V.
  - right. pose proof (validate_inputs_range _ _ _ _ V) as Hr.
    apply validate_inputs_ok in V. destruct V as [_ [_ [_ <-]]].
    destruct (range_bmi _ _ _ Hr) as [bmi [Hc Hp]].
    exists w, h, bmi. rewrite Hc.
    split; [reflexivity|]. split; [exact Hr|]. split; [reflexivity|].
    split; [exact Hp | reflexivity].
  - left. exists e. now split.
Qed.




(* ================================================================== *)
(** ** What every state of the application satisfies *)

Lemma sorted_map_filter {A : Type} (f : A -> Z) (g : A -> bool) (l : list A) :
  StronglySorted Z.lt (map f l) -> StronglySorted Z.lt (map f (filter g l)).
Proof.
  induction l as [|x l IH]; intros Hs; cbn; [constructor|].
  cbn in Hs. apply StronglySorted_inv in Hs. destruct Hs as [Hs Hall].
  destruct (g x); cbn; [|now apply IH].
  constructor; [now apply IH|].
  rewrite Forall_forall in *. intros i Hi. apply Hall.
  apply in_map_iff in Hi. destruct Hi as [y [<- Hy]].
  apply in_map. now apply filter_In in Hy.
Qed.

Lemma nodup_map_filter {A B : Type} (f : A -> B) (g : A -> bool) (l : list A) :
  NoDup (map f l) -> NoDup (map f (filter g l)).
Proof.
  induction l as [|x l IH]; intros Hn; cbn; [constructor|].
  cbn in Hn. apply NoDup_cons_iff in Hn. destruct Hn as [Hx Hn].
  destruct (g x); cbn; [|now apply IH].
  constructor; [|now apply IH].
  intros Hin. apply Hx. apply in_map_iff in Hin. destruct Hin as [y [E Hy]].
  apply in_map_iff. exists y. split; [exact E|]. now apply filter_In in Hy.
Qed.

Lemma sorted_nodup (ids : list Z) : StronglySorted Z.lt ids -> NoDup ids.
Proof.
  induction 1 as [|i ids Hs IH Hall]; constructor; [|exact IH].
  intros Hin. rewrite Forall_forall in Hall. apply Hall in Hin. lia.
Qed.

Lemma users_ok_insert (tb tb' : Sql.tables) (name : string) (dob : option string)
    (uid : Z) :
  Sql.insert_user tb name dob = Ok (tb', uid) -> users_ok tb -> users_ok tb'.
Proof.
  unfold Sql.insert_user.
  destruct (Sql.name_taken name (Sql.users tb)) eqn:Et; [discriminate|].
  intros E. injection E as <- <-. intros [Ha [Hs Hn]].
  unfold users_ok, user_ids. cbn. rewrite !map_app. cbn.
  split; [now apply ids_ascending_snoc|]. split; [lia|].
  apply NoDup_app; [exact Hn | repeat constructor; intros [] |].
  intros x Hx [<- | []].
  apply name_taken_iff in Hx. congruence.
Qed.

Lemma rename_names (uid : Z) (name x : string) (l : list Sql.user) :
  In x (map Sql.u_name (map (Sql.rename uid name) l)) ->
  x = name \/
  In x (map Sql.u_name (filter (fun u => negb (Sql.u_id u =? uid)%Z) l)).
Proof.
  induction l as [|u l IH]; cbn; [tauto|].
  unfold Sql.rename at 1.
  destruct (Sql.u_id u =? uid)%Z; cbn.
  - intros [<- | H]; [now left | now apply IH].
  - intros [<- | H]; [right; now left|].
    destruct (IH H) as [-> | H']; [now left | right; now right].
Qed.

Lemma rename_others (uid : Z) (name : string) (l : list Sql.user) :
  ~ In uid (map Sql.u_id l) ->
  map (Sql.rename uid name) l = l /\
  filter (fun u => negb (Sql.u_id u =? uid)%Z) l = l.
Proof.
  induction l as [|y l IH]; intros Hno; cbn; [now split|].
  cbn in Hno. unfold Sql.rename at 1.
  destruct (Sql.u_id y =? uid)%Z eqn:Ey.
  - apply Z.eqb_eq in Ey. exfalso. apply Hno. now left.
  - cbn. destruct IH as [E1 E2]; [tauto|]. now rewrite E1, E2.
Qed.

Lemma rename_nodup (uid : Z) (name : string) (l : list Sql.user) :
  NoDup (map Sql.u_id l) -> NoDup (map Sql.u_name l) ->
  ~ In name (map Sql.u_name (filter (fun u => negb (Sql.u_id u =? uid)%Z) l)) ->
  NoDup (map Sql.u_name (map (Sql.rename uid name) l)).
Proof.
  induction l as [|u l IH]; intros Hi Hn Hfree; cbn; [constructor|].
  cbn in Hi, Hn. apply NoDup_cons_iff in Hi. destruct Hi as [Hiu Hi].
  apply NoDup_cons_iff in Hn. destruct Hn as [Hnu Hn].
  cbn in Hfree. unfold Sql.rename at 1.
  destruct (Sql.u_id u =? uid)%Z eqn:E; cbn in Hfree |- *.
  - apply Z.eqb_eq in E. rewrite E in Hiu.
    destruct (rename_others uid name l Hiu) as [E1 E2].
    rewrite E1. rewrite E2 in Hfree. now constructor.
  - constructor; [|apply IH; tauto].
    intros Hin. apply rename_names in Hin. destruct Hin as [Hin | Hin].
    + apply Hfree. now left.
    + apply Hnu. apply in_map_iff in Hin. destruct Hin as [y [Ey Hy]].
      apply in_map_iff. exists y. split; [exact Ey|]. now apply filter_In in Hy.
Qed.

Lemma users_ok_update (tb tb' : Sql.tables) (name : string) (uid : Z) :
  Sql.update_user_name tb name uid = Ok tb' -> users_ok tb -> users_ok tb'.
Proof.
  intros E [Ha [Hs Hn]].
  pose proof (update_user_name_ok _ _ _ _ E) as [Eids _].
  unfold Sql.update_user_name in E.
  destruct (existsb (fun u => (Sql.u_id u =? uid)%Z) (Sql.users tb)) eqn:Ex;
    cbn [andb] in E.
  - destruct (Sql.name_taken name
                (filter (fun u => negb (Sql.u_id u =? uid)%Z) (Sql.users tb)))
      eqn:Et; [discriminate|].
    injection E as <-. unfold users_ok. rewrite Eids. cbn.
    split; [exact Ha|]. split; [exact Hs|].
    apply rename_nodup; [apply sorted_nodup, Ha | exact Hn |].
    intros Hin. apply name_taken_iff in Hin. congruence.
  - injection E as <-. unfold users_ok. rewrite Eids. cbn.
    split; [exact Ha|]. split; [exact Hs|].
    assert (Hno : ~ In uid (map Sql.u_id (Sql.users tb))).
    { intros Hin. apply in_map_iff in Hin. destruct Hin as [u [Eu Hu]].
      apply not_true_iff_false in Ex. apply Ex. apply existsb_exists.
      exists u. split; [exact Hu | now apply Z.eqb_eq]. }
    destruct (rename_others uid name _ Hno) as [E1 _]. now rewrite E1.
Qed.

Lemma users_ok_delete (tb : Sql.tables) (uid : Z) :
  users_ok tb -> users_ok (Sql.delete_user (Sql.delete_readings_of tb uid) uid).
Proof.
  intros [[Ha Hb] [Hs Hn]]. unfold users_ok, user_ids. cbn.
  split; [split|split].
  - now apply sorted_map_filter.
  - rewrite Forall_forall in *. intros i Hi. apply Hb.
    apply in_map_iff in Hi. destruct Hi as [u [<- Hu]].
    apply in_map. now apply filter_In in Hu.
  - exact Hs.
  - now apply nodup_map_filter.
Qed.

Lemma delete_readings_users (sel : list Z) (db : DB.t) :
  let c := fold_left (fun c iid => DB.execute c (Sql.delete_reading (DB.view c) iid))
                     sel db in
  Sql.users (DB.view c) = Sql.users (DB.view db) /\
  Sql.users_seq (DB.view c) = Sql.users_seq (DB.view db) /\
  Sql.readings (DB.view c)
  = filter (fun r => negb (existsb (Z.eqb (Sql.r_id r)) sel))
           (Sql.readings (DB.view db)) /\
  Sql.readings_seq (DB.view c) = Sql.readings_seq (DB.view db) /\
  DB.commits c = DB.commits db.
Proof.
  revert db. induction sel as [|iid sel IH]; intros db; cbn.
  - repeat split. symmetry. now apply filter_all.
  - destruct (IH (DB.execute db (Sql.delete_reading (DB.view db) iid)))
      as [Hu [Hs [Hr [Hq Hc]]]].
    cbn in Hu, Hs, Hr, Hq, Hc. repeat split; try assumption.
    rewrite Hr. clear.
    induction (Sql.readings (DB.view db)) as [|r l IHl]; cbn; [reflexivity|].
    destruct (Sql.r_id r =? iid)%Z; cbn; [exact IHl|].
    destruct (existsb (Z.eqb (Sql.r_id r)) sel); cbn; [exact IHl|].
    now rewrite IHl.
Qed.

Lemma Forall_filter {A : Type} (Q : A -> Prop) (f : A -> bool) (l : list A) :
  Forall Q l -> Forall Q (filter f l).
Proof.
  rewrite !Forall_forall. intros H x Hx. apply H. now apply filter_In in Hx.
Qed.

Lemma stripped_notes (s : string) :
  (if Str.truthy s then Some s else None) <> Some EmptyString.
Proof. destruct s; cbn; congruence. Qed.

Section EngineInvariant.

Context {O : OrderBy} {P : Platform}.

Lemma refresh_chart_inputs (app : BMIApp.t) :
  BMIApp.unit_mode (BMIApp.refresh_chart app) = BMIApp.unit_mode app /\
  BMIApp.weight_var (BMIApp.refresh_chart app) = BMIApp.weight_var app /\
  BMIApp.height_var (BMIApp.refresh_chart app) = BMIApp.height_var app /\
  BMIApp.notes_var (BMIApp.refresh_chart app) = BMIApp.notes_var app.
Proof.
  unfold BMIApp.refresh_chart.
  destruct (BMIApp.no_user_selected app); [repeat split|].
  destruct (BMIApp.selected_user_id app); repeat split.
Qed.

Lemma engine_inv_same (app app' : BMIApp.t) :
  BMIApp.db app' = BMIApp.db app ->
  BMIApp.last_calculation app' = BMIApp.last_calculation app ->
  BMIApp.unit_mode app' = BMIApp.unit_mode app ->
  engine_inv app -> engine_inv app'.
Proof. unfold engine_inv. now intros -> -> ->. Qed.

Lemma engine_inv_refresh_chart (app : BMIApp.t) :
  engine_inv app -> engine_inv (BMIApp.refresh_chart app).
Proof.
  apply engine_inv_same;
    [apply refresh_chart_frame | apply refresh_chart_frame | apply refresh_chart_inputs].
Qed.

Lemma engine_inv_step (app : BMIApp.t) (ev : BMIApp.event) :
  engine_inv app -> engine_inv (BMIApp.step app ev).
Proof.
  intros Hinv. destruct ev; cbn [BMIApp.step].
  - exact Hinv.
  - destruct Hinv as [H1 [H2 [_ [H4 H5]]]].
    split; [exact H1|]. split; [exact H2|]. split; [|now split].
    cbn. destruct imperial; [now right | now left].
  - unfold BMIApp.on_user_select.
    destruct sel as [i|]; [|exact Hinv].
    destruct (nth_error (BMIApp.user_listbox app) i); [|exact Hinv].
    apply engine_inv_refresh_chart. exact Hinv.
  - unfold BMIApp.add_user_dialog.
    destruct name as [name|]; [|exact Hinv].
    destruct (Str.truthy name); cbn [negb]; [|exact Hinv].
    unfold DB.add_user.
    destruct (Sql.insert_user (DB.view (BMIApp.db app)) (Str.strip name) dob)
      as [[tb uid]|e] eqn:E; cbn [fst].
    + destruct Hinv as [H1 [H2 [H3 [H4 H5]]]].
      pose proof (users_ok_insert _ _ _ _ _ E H4) as H4'.
      apply insert_user_ok in E. destruct E as [_ Er].
      split; [cbn; now rewrite Er|]. split; [exact H2|]. split; [exact H3|].
      split; [exact H4'|]. cbn. now eexists.
    + destruct app; exact Hinv.
  - unfold BMIApp.rename_user_dialog.
    destruct (BMIApp.no_user_selected app); [exact Hinv|].
    destruct (BMIApp.selected_user_id app) as [uid|]; [|exact Hinv].
    destruct (DB.get_user (BMIApp.db app) uid); [|exact Hinv].
    destruct newname as [newname|]; [|exact Hinv].
    destruct (Str.truthy newname); cbn [negb]; [|exact Hinv].
    destruct (Sql.update_user_name (DB.view (BMIApp.db app)) (Str.strip newname) uid)
      as [tb|e] eqn:E; cbn [fst]; [|exact Hinv].
    destruct Hinv as [H1 [H2 [H3 [H4 H5]]]].
    pose proof (users_ok_update _ _ _ _ E H4) as H4'.
    apply update_user_name_ok in E. destruct E as [_ Er].
    split; [cbn; now rewrite Er|]. split; [exact H2|]. split; [exact H3|].
    split; [exact H4'|]. cbn. now eexists.
  - unfold BMIApp.delete_user.
    destruct (BMIApp.no_user_selected app); [exact Hinv|].
    destruct (BMIApp.selected_user_id app) as [uid|]; [|exact Hinv].
    destruct confirm; cbn [negb fst]; [|exact Hinv].
    destruct Hinv as [H1 [H2 [H3 [H4 H5]]]].
    split; [cbn; now apply Forall_filter|]. split; [exact H2|]. split; [exact H3|].
    split; [exact (users_ok_delete _ uid H4)|]. cbn. now eexists.
  - destruct (calculate_action_cases app)
      as [[e [_ E]] | [w [h [bmi [_ [_ [_ [Hp E]]]]]]]]; rewrite E; cbn [fst];
      [exact Hinv|].
    destruct Hinv as [H1 [_ [H3 [H4 H5]]]].
    split; [exact H1|]. split; [|split; [exact H3|split; [exact H4|exact H5]]].
    intros b c Hl. cbn in Hl. now injection Hl as <- _.
  - unfold BMIApp.save_action.
    destruct (BMIApp.last_calculation app) as [[bmi category]|] eqn:El; [|exact Hinv].
    destruct (BMIApp.weight_var app) as [w|]; [|exact Hinv].
    destruct (BMIApp.height_var app) as [h|]; [|exact Hinv].
    destruct (BMIApp.selected_user_id app) as [uid|].
    + rewrite save_reading_appends. cbn [fst].
      apply engine_inv_refresh_chart.
      destruct Hinv as [H1 [H2 [H3 [H4 H5]]]].
      split; [|split; [exact H2|split; [exact H3|split; [exact H4|cbn; now eexists]]]].
      cbn. apply Forall_app. split; [exact H1|].
      constructor; [|constructor]. split; [exact H3|].
      split; [apply stripped_notes | exact (H2 _ _ El)].
    + cbn. destruct app; exact Hinv.
  - unfold BMIApp.delete_selected_reading.
    destruct sel as [|iid sel]; [exact Hinv|].
    destruct confirm; cbn [negb fst]; [|exact Hinv].
    apply engine_inv_refresh_chart.
    destruct (delete_readings_users (iid :: sel) (BMIApp.db app))
      as [Hu [Hs [Hr [_ _]]]]. cbv zeta in Hu, Hs, Hr.
    destruct Hinv as [H1 [H2 [H3 [[[Ha Hb] [Hq Hn]] H5]]]].
    split; [|split; [exact H2|split; [exact H3|split]]].
    + cbn [BMIApp.db BMIApp.with_db DB.view DB.commit]. rewrite Hr.
      now apply Forall_filter.
    + unfold users_ok, user_ids.
      cbn [BMIApp.db BMIApp.with_db DB.view DB.commit]. rewrite Hu, Hs.
      now repeat split.
    + cbn. now eexists.
Qed.

Lemma engine_inv_init (file : option Sql.tables) :
  sound_file file -> engine_inv (BMIApp.init file).
Proof.
  intros Hf. unfold BMIApp.init, engine_inv. cbn.
  split; [|split; [discriminate|split; [now left|split; [|now eexists]]]].
  - destruct file as [tb|]; [apply Hf | constructor].
  - destruct file as [tb|]; [apply Hf|].
    split; [split; constructor|]. split; [cbn; lia | constructor].
Qed.

Lemma engine_inv_run (file : option Sql.tables) (evs : list BMIApp.event) :
  sound_file file -> engine_inv (BMIApp.run file evs).
Proof.
  intros Hf. unfold BMIApp.run.
  assert (G : forall app, engine_inv app -> engine_inv (fold_left BMIApp.step evs app)).
  { induction evs as [|ev evs IH]; intros app Ha; cbn; [exact Ha|].
    apply IH. now apply engine_inv_step. }
  apply G. now apply engine_inv_init.
Qed.

End EngineInvariant.

(** X3: in every state that the application reaches from a file it
    wrote, each reading has the unit 'metric' or 'imperial', notes that
    are absent or not empty, and a bmi between 2.70 and 2000. *)
Theorem saved_readings_plausible {O : OrderBy} {P : Platform}
    (file : option Sql.tables) (evs : list BMIApp.event) :
  sound_file file ->
  Forall (fun r =>
            (Sql.r_unit r = "metric" \/ Sql.r_unit r = "imperial") /\
            Sql.r_notes r <> Some EmptyString /\
            2.70 <= Sql.r_bmi r /\ Sql.r_bmi r <= 2000)
         (Sql.readings (DB.view (BMIApp.db (BMIApp.run file evs)))).
Proof.
  intros Hf. destruct (engine_inv_run file evs Hf) as [H _].
  eapply Forall_impl; [|exact H].
  intros r [Hu [Hn [Hlo Hhi]]]. now repeat split.
Qed.

Lemma saved_readings_plausible_witness :
  Forall (fun r =>
            (Sql.r_unit r = "metric" \/ Sql.r_unit r = "imperial") /\
            Sql.r_notes r <> Some EmptyString /\
            2.70 <= Sql.r_bmi r /\ Sql.r_bmi r <= 2000)
         (Sql.readings
            (DB.view
               (BMIApp.db
                  (@BMIApp.run stable_engine example_platform None
                     [BMIApp.Add_user (Some "Alice") None;
                      BMIApp.Select_user (Some 0%nat);
                      BMIApp.Choose_unit true;
                      BMIApp.Edit_inputs (Some 154) (Some 69) "   ";
                      BMIApp.Calculate;
                      BMIApp.Save "2024-05-01T08:00:00"])))).
Proof.
  exact (@saved_readings_plausible stable_engine example_platform None _ I).
Defined.

(** X4: in every state that the application reaches from a file it
    wrote, the names of the users are pairwise distinct, their ids are
    positive, strictly ascending along the table and at most the
    AUTOINCREMENT counter. *)
Theorem users_stay_unique {O : OrderBy} {P : Platform}
    (file : option Sql.tables) (evs : list BMIApp.event) :
  sound_file file ->
  let tb := DB.view (BMIApp.db (BMIApp.run file evs)) in
  NoDup (map Sql.u_name (Sql.users tb)) /\
  StronglySorted Z.lt (map Sql.u_id (Sql.users tb)) /\
  Forall (fun u => (0 < Sql.u_id u <= Sql.users_seq tb)%Z) (Sql.users tb).
Proof.
  intros Hf tb.
  destruct (engine_inv_run file evs Hf) as [_ [_ [_ [[[Ha Hb] [_ Hn]] _]]]].
  split; [exact Hn|]. split; [exact Ha|].
  unfold user_ids in Hb. now apply Forall_map in Hb.
Qed.

Lemma users_stay_unique_witness :
  let tb := DB.view (BMIApp.db
                       (@BMIApp.run stable_engine example_platform None
                          [BMIApp.Add_user (Some "Alice") None;
                           BMIApp.Add_user (Some "Bob") None;
                           BMIApp.Select_user (Some 0%nat);
                           BMIApp.Rename_user (Some "Bob");
                           BMIApp.Delete_user true;
                           BMIApp.Add_user (Some "Alice") None])) in
  map Sql.u_id (Sql.users tb) = [2%Z; 3%Z] /\
  NoDup (map Sql.u_name (Sql.users tb)).
Proof.
  intros tb. split; [reflexivity|].
  exact (proj1 (@users_stay_unique stable_engine example_platform None _ I)).
Defined.

(** X5: after every event the connection holds nothing uncommitted: what
    its statements see is the snapshot that the last commit wrote. *)
Theorem every_change_is_committed {O : OrderBy} {P : Platform}
    (file : option Sql.tables) (evs : list BMIApp.event) :
  sound_file file ->
  exists older,
    DB.commits (BMIApp.db (BMIApp.run file evs))
    = DB.view (BMIApp.db (BMIApp.run file evs)) :: older.
Proof.
  intros Hf. now destruct (engine_inv_run file evs Hf) as [_ [_ [_ [_ H]]]].
Qed.

Lemma every_change_is_committed_witness :
  exists older,
    DB.commits (BMIApp.db (@BMIApp.run stable_engine example_platform None
                             [BMIApp.Add_user (Some "Alice") None;
                              BMIApp.Add_user (Some "Alice") None]))
    = DB.view (BMIApp.db (@BMIApp.run stable_engine example_platform None
                            [BMIApp.Add_user (Some "Alice") None;
                             BMIApp.Add_user (Some "Alice") None])) :: older.
Proof.
  exact (@every_change_is_committed stable_engine example_platform None _ I).
Defined.

Section Steps.

Context {O : OrderBy} {P : Platform}.

Lemma step_db (app : BMIApp.t) (ev : BMIApp.event) :
  (writes ev = false -> BMIApp.db (BMIApp.step app ev) = BMIApp.db app) /\
  (BMIApp.db (BMIApp.step app ev) = BMIApp.db app \/
   DB.commits (BMIApp.db (BMIApp.step app ev))
   = DB.view (BMIApp.db (BMIApp.step app ev)) :: DB.commits (BMIApp.db app)).
Proof.
  destruct ev; cbn [BMIApp.step writes].
  - split; [reflexivity | now left].
  - split; [reflexivity | now left].
  - assert (E : BMIApp.db (BMIApp.on_user_select app sel) = BMIApp.db app).
    { unfold BMIApp.on_user_select. destruct sel as [i|]; [|reflexivity].
      destruct (nth_error (BMIApp.user_listbox app) i); [|reflexivity].
      now rewrite (proj1 (refresh_chart_frame _)). }
    split; [now intros _ | now left].
  - split; [discriminate|]. unfold BMIApp.add_user_dialog.
    destruct name as [name|]; [|now left].
    destruct (Str.truthy name); cbn [negb]; [|now left].
    unfold DB.add_user.
    destruct (Sql.insert_user (DB.view (BMIApp.db app)) (Str.strip name) dob)
      as [[tb uid]|e]; cbn [fst]; [now right | now left].
  - split; [discriminate|]. unfold BMIApp.rename_user_dialog.
    destruct (BMIApp.no_user_selected app); [now left|].
    destruct (BMIApp.selected_user_id app) as [uid|]; [|now left].
    destruct (DB.get_user (BMIApp.db app) uid); [|now left].
    destruct newname as [newname|]; [|now left].
    destruct (Str.truthy newname); cbn [negb]; [|now left].
    destruct (Sql.update_user_name (DB.view (BMIApp.db app)) (Str.strip newname) uid);
      cbn [fst]; [now right | now left].
  - split; [discriminate|]. unfold BMIApp.delete_user.
    destruct (BMIApp.no_user_selected app); [now left|].
    destruct (BMIApp.selected_user_id app) as [uid|]; [|now left].
    destruct confirm; cbn [negb fst]; [now right | now left].
  - assert (E : BMIApp.db (fst (BMIApp.calculate_action app)) = BMIApp.db app).
    { destruct (calculate_action_cases app)
        as [[e [_ E]] | [w [h [bmi [_ [_ [_ [_ E]]]]]]]]; now rewrite E. }
    split; [now intros _ | now left].
  - split; [discriminate|]. unfold BMIApp.save_action.
    destruct (BMIApp.last_calculation app) as [[bmi category]|]; [|now left].
    destruct (BMIApp.weight_var app) as [w|]; [|now left].
    destruct (BMIApp.height_var app) as [h|]; [|now left].
    destruct (BMIApp.selected_user_id app) as [uid|].
    + rewrite save_reading_appends. cbn [fst].
      rewrite (proj1 (refresh_chart_frame _)). now right.
    + cbn. left. now destruct app.
  - split; [discriminate|]. unfold BMIApp.delete_selected_reading.
    destruct sel as [|iid sel]; [now left|].
    destruct confirm; cbn [negb fst]; [|now left].
    rewrite (proj1 (refresh_chart_frame _)). right.
    destruct (delete_readings_users (iid :: sel) (BMIApp.db app))
      as [_ [_ [_ [_ Hc]]]]. cbv zeta in Hc.
    cbn [BMIApp.db BMIApp.with_db DB.view DB.commit DB.commits]. now rewrite Hc.
Qed.

Lemma step_user_ids (app : BMIApp.t) (ev : BMIApp.event) :
  let before := DB.view (BMIApp.db app) in
  let after := DB.view (BMIApp.db (BMIApp.step app ev)) in
  (Sql.users_seq before <= Sql.users_seq after)%Z /\
  (forall uid, In uid (user_ids after) ->
               In uid (user_ids before) \/
               (uid = Sql.users_seq before + 1 /\
                Sql.users_seq after = Sql.users_seq before + 1)%Z).
Proof.
  cbv zeta. destruct ev; cbn [BMIApp.step].
  - pose proof (proj1 (step_db app (BMIApp.Edit_inputs weight height notes)) eq_refl) as E.
    cbn [BMIApp.step] in E. rewrite E. (cbn [fst]; split; [lia | now left]).
  - pose proof (proj1 (step_db app (BMIApp.Choose_unit imperial)) eq_refl) as E.
    cbn [BMIApp.step] in E. rewrite E. (cbn [fst]; split; [lia | now left]).
  - pose proof (proj1 (step_db app (BMIApp.Select_user sel)) eq_refl) as E.
    cbn [BMIApp.step] in E. rewrite E. (cbn [fst]; split; [lia | now left]).
  - unfold BMIApp.add_user_dialog.
    destruct name as [name|]; [|(cbn [fst]; split; [lia | now left])].
    destruct (Str.truthy name); cbn [negb]; [|(cbn [fst]; split; [lia | now left])].
    unfold DB.add_user, Sql.insert_user.
    destruct (Sql.name_taken (Str.strip name) (Sql.users (DB.view (BMIApp.db app))));
      cbn; [(cbn [fst]; split; [lia | now left])|].
    split; [lia|]. intros uid Hin. unfold user_ids in Hin. cbn in Hin.
    rewrite map_app in Hin. apply in_app_or in Hin.
    destruct Hin as [Hin | [<- | []]]; [now left | now right].
  - unfold BMIApp.rename_user_dialog.
    destruct (BMIApp.no_user_selected app); [(cbn [fst]; split; [lia | now left])|].
    destruct (BMIApp.selected_user_id app) as [uid|]; [|(cbn [fst]; split; [lia | now left])].
    destruct (DB.get_user (BMIApp.db app) uid); [|(cbn [fst]; split; [lia | now left])].
    destruct newname as [newname|]; [|(cbn [fst]; split; [lia | now left])].
    destruct (Str.truthy newname); cbn [negb]; [|(cbn [fst]; split; [lia | now left])].
    destruct (Sql.update_user_name (DB.view (BMIApp.db app)) (Str.strip newname) uid)
      as [tb|e] eqn:E; cbn [fst]; [|(cbn [fst]; split; [lia | now left])].
    pose proof (update_user_name_ok _ _ _ _ E) as [Eids _].
    unfold Sql.update_user_name in E.
    match type of E with (if ?c then _ else _) = _ => destruct c end;
      [discriminate|].
    injection E as <-. cbn. split; [lia|]. intros i Hi. left.
    unfold user_ids in *. cbn in *. now rewrite <- Eids.
  - unfold BMIApp.delete_user.
    destruct (BMIApp.no_user_selected app); [(cbn [fst]; split; [lia | now left])|].
    destruct (BMIApp.selected_user_id app) as [uid|]; [|(cbn [fst]; split; [lia | now left])].
    destruct confirm; cbn [negb fst]; [|(cbn [fst]; split; [lia | now left])].
    cbn. split; [lia|]. intros i Hi. left. unfold user_ids in *. cbn in Hi.
    apply in_map_iff in Hi. destruct Hi as [u [<- Hu]].
    apply in_map. now apply filter_In in Hu.
  - pose proof (proj1 (step_db app BMIApp.Calculate) eq_refl) as E.
    cbn [BMIApp.step] in E. rewrite E. (cbn [fst]; split; [lia | now left]).
  - unfold BMIApp.save_action.
    destruct (BMIApp.last_calculation app) as [[bmi category]|];
      [|(cbn [fst]; split; [lia | now left])].
    destruct (BMIApp.weight_var app) as [w|]; [|(cbn [fst]; split; [lia | now left])].
    destruct (BMIApp.height_var app) as [h|]; [|(cbn [fst]; split; [lia | now left])].
    destruct (BMIApp.selected_user_id app) as [uid|].
    + rewrite save_reading_appends. cbn [fst].
      rewrite (proj1 (refresh_chart_frame _)). cbn. (cbn [fst]; split; [lia | now left]).
    + cbn. (cbn [fst]; split; [lia | now left]).
  - unfold BMIApp.delete_selected_reading.
    destruct sel as [|iid sel]; [(cbn [fst]; split; [lia | now left])|].
    destruct confirm; cbn [negb fst]; [|(cbn [fst]; split; [lia | now left])].
    rewrite (proj1 (refresh_chart_frame _)).
    destruct (delete_readings_users (iid :: sel) (BMIApp.db app))
      as [Hu [Hs _]]. cbv zeta in Hu, Hs.
    unfold user_ids. cbn [BMIApp.db BMIApp.with_db DB.view DB.commit].
    rewrite Hu, Hs. (cbn [fst]; split; [lia | now left]).
Qed.

End Steps.

(** X6: editing the form, choosing the unit, selecting a user and
    calculating never touch the database; every other event either leaves
    it as it is or ends in exactly one commit of what it changed. *)
Theorem events_commit_once {O : OrderBy} {P : Platform}
    (app : BMIApp.t) (ev : BMIApp.event) :
  (match ev with
   | BMIApp.Edit_inputs _ _ _ | BMIApp.Choose_unit _ | BMIApp.Select_user _
   | BMIApp.Calculate => BMIApp.db (BMIApp.step app ev) = BMIApp.db app
   | _ => True
   end) /\
  (BMIApp.db (BMIApp.step app ev) = BMIApp.db app \/
   DB.commits (BMIApp.db (BMIApp.step app ev))
   = DB.view (BMIApp.db (BMIApp.step app ev)) :: DB.commits (BMIApp.db app)).
Proof.
  destruct (step_db app ev) as [H1 H2]. split; [|exact H2].
  destruct ev; try exact I; now apply H1.
Qed.

(** X7: the counter of user ids never goes down, and an id that appears
    with an event is the counter plus one: no event gives a user an id
    that the counter has passed, so the id of a deleted user is not handed
    out again. *)
Theorem user_ids_are_not_reused {O : OrderBy} {P : Platform}
    (app : BMIApp.t) (ev : BMIApp.event) :
  (Sql.users_seq (DB.view (BMIApp.db app))
   <= Sql.users_seq (DB.view (BMIApp.db (BMIApp.step app ev))))%Z /\
  (forall uid,
     In uid (user_ids (DB.view (BMIApp.db (BMIApp.step app ev)))) ->
     In uid (user_ids (DB.view (BMIApp.db app))) \/
     (uid = Sql.users_seq (DB.view (BMIApp.db app)) + 1)%Z).
Proof.
  destruct (step_user_ids app ev) as [H1 H2]. cbv zeta in H1, H2.
  split; [exact H1|]. intros uid Hin.
  destruct (H2 uid Hin) as [H | [H _]]; [now left | now right].
Qed.

(* ================================================================== *)
(** ** The handlers, one by one *)


(** X9: [delete_selected_reading] warns on an empty selection and does
    nothing without the confirmation; confirmed, it removes exactly the
    readings whose ids are selected, keeps the others in their order and
    the users as they are, and commits once. *)
Theorem delete_selected_reading_effect {O : OrderBy} {P : Platform}
    (app : BMIApp.t) (sel : list Z) (confirm : bool) :
  (sel = [] ->
   BMIApp.delete_selected_reading app sel confirm
   = (app, Some (BMIApp.showwarning "Delete" "Select a reading first"))) /\
  (sel <> [] -> confirm = false ->
   BMIApp.delete_selected_reading app sel confirm = (app, None)) /\
  (sel <> [] -> confirm = true ->
   let before := DB.view (BMIApp.db app) in
   let db' := BMIApp.db (fst (BMIApp.delete_selected_reading app sel confirm)) in
   snd (BMIApp.delete_selected_reading app sel confirm) = None /\
   Sql.readings (DB.view db')
   = filter (fun r => negb (existsb (Z.eqb (Sql.r_id r)) sel))
            (Sql.readings before) /\
   Sql.users (DB.view db') = Sql.users before /\
   DB.commits db' = DB.view db' :: DB.commits (BMIApp.db app)).
Proof.
  unfold BMIApp.delete_selected_reading. split; [|split].
  - now intros ->.
  - intros Hne ->. destruct sel; [now contradiction Hne | reflexivity].
  - intros Hne ->. destruct sel as [|iid sel]; [now contradiction Hne|].
    cbn [negb fst snd]. cbv zeta.
    rewrite (proj1 (refresh_chart_frame _)).
    destruct (delete_readings_users (iid :: sel) (BMIApp.db app))
      as [Hu [_ [Hr [_ Hc]]]]. cbv zeta in Hu, Hr, Hc.
    cbn [BMIApp.db BMIApp.with_db DB.view DB.commit DB.commits].
    rewrite Hc. now repeat split.
Qed.

Lemma delete_selected_reading_effect_witness :
  let app :=
    @BMIApp.run stable_engine example_platform None
      [BMIApp.Add_user (Some "Alice") None;
       BMIApp.Select_user (Some 0%nat);
       BMIApp.Edit_inputs (Some 70) (Some 175) EmptyString;
       BMIApp.Calculate;
       BMIApp.Save "2024-05-01T08:00:00";
       BMIApp.Save "2024-05-02T08:00:00";
       BMIApp.Save "2024-05-03T08:00:00"] in
  map Sql.r_id
      (Sql.readings
         (DB.view
            (BMIApp.db
               (fst (@BMIApp.delete_selected_reading stable_engine app
                       [1%Z; 3%Z] true)))))
  = [2%Z].
Proof.
  intros app.
  pose proof (proj2 (proj2 (@delete_selected_reading_effect
                              stable_engine example_platform app [1%Z; 3%Z] true))
                ltac:(discriminate) eq_refl) as H.
  cbv zeta in H. destruct H as [_ [Hr _]]. rewrite Hr. reflexivity.
Defined.

Lemma get_user_some (db : DB.t) (uid : Z) :
  In uid (user_ids (DB.view db)) -> DB.get_user db uid <> None.
Proof.
  intros Hin. unfold DB.get_user.
  destruct (find (fun u => (Sql.u_id u =? uid)%Z) (Sql.users (DB.view db))) eqn:F;
    [discriminate|].
  unfold user_ids in Hin. apply in_map_iff in Hin. destruct Hin as [u [Eu Hu]].
  apply (find_none _ _ F) in Hu. apply Z.eqb_neq in Hu. contradiction.
Qed.

(** X10: for the selected user and a non-empty answer, [rename_user_dialog]
    fails with the UNIQUE message, the database untouched, exactly when
    another user already has the stripped name; otherwise it gives that
    name to the selected user alone, keeps every id, date of birth and
    reading, and commits once.  Renaming a user to the name the user
    already has therefore succeeds and changes no row. *)
Theorem rename_user_effect {O : OrderBy} (app : BMIApp.t) (uid : Z)
    (newname : string) :
  BMIApp.selected_user_id app = Some uid -> uid <> 0%Z ->
  In uid (user_ids (DB.view (BMIApp.db app))) ->
  Str.truthy newname = true ->
  let tb := DB.view (BMIApp.db app) in
  let name := Str.strip newname in
  let others := filter (fun u => negb (Sql.u_id u =? uid)%Z) (Sql.users tb) in
  (In name (map Sql.u_name others) ->
   BMIApp.rename_user_dialog app (Some newname)
   = (app, Some (BMIApp.showerror "Rename"
                   "Failed to rename: UNIQUE constraint failed: users.name"))) /\
  (~ In name (map Sql.u_name others) ->
   let db' := BMIApp.db (fst (BMIApp.rename_user_dialog app (Some newname))) in
   snd (BMIApp.rename_user_dialog app (Some newname)) = None /\
   Sql.users (DB.view db') = map (Sql.rename uid name) (Sql.users tb) /\
   map Sql.u_id (Sql.users (DB.view db')) = map Sql.u_id (Sql.users tb) /\
   map Sql.u_dob (Sql.users (DB.view db')) = map Sql.u_dob (Sql.users tb) /\
   Sql.readings (DB.view db') = Sql.readings tb /\
   DB.commits db' = DB.view db' :: DB.commits (BMIApp.db app) /\
   (forall u, In u (Sql.users tb) -> Sql.u_id u = uid -> Sql.u_name u = name ->
              NoDup (map Sql.u_id (Sql.users tb)) ->
              Sql.users (DB.view db') = Sql.users tb)).
Proof.
  intros Hsel Hnz Hin Ht tb name others.
  assert (Hex : existsb (fun u => (Sql.u_id u =? uid)%Z) (Sql.users tb) = true).
  { unfold user_ids in Hin. apply in_map_iff in Hin. destruct Hin as [u [Eu Hu]].
    apply existsb_exists. exists u. split; [exact Hu | now apply Z.eqb_eq]. }
  pose proof (get_user_some _ _ Hin) as Hg.
  unfold BMIApp.rename_user_dialog, BMIApp.no_user_selected.
  rewrite Hsel. apply Z.eqb_neq in Hnz. rewrite Hnz.
  destruct (DB.get_user (BMIApp.db app) uid) as [t|]; [|now contradiction Hg].
  rewrite Ht. cbn [negb]. unfold Sql.update_user_name.
  fold tb. rewrite Hex. cbn [andb]. fold others. fold name. split.
  - intros Htaken. apply name_taken_iff in Htaken. now rewrite Htaken.
  - intros Hfree. rewrite <- name_taken_iff in Hfree.
    apply not_true_is_false in Hfree. rewrite Hfree. cbn.
    split; [reflexivity|]. split; [reflexivity|].
    split; [rewrite map_map; apply map_ext; intros u; unfold Sql.rename;
            now destruct (Sql.u_id u =? uid)%Z|].
    split; [rewrite map_map; apply map_ext; intros u; unfold Sql.rename;
            now destruct (Sql.u_id u =? uid)%Z|].
    split; [reflexivity|]. split; [reflexivity|].
    intros u Hu Eid Ename Hnd.
    clear -Hu Eid Ename Hnd. fold tb in Hu, Hnd.
    induction (Sql.users tb) as [|y l IH]; [reflexivity|].
    cbn. cbn in Hnd. apply NoDup_cons_iff in Hnd. destruct Hnd as [Hy Hnd].
    destruct Hu as [-> | Hu].
    + unfold Sql.rename at 1. rewrite Eid, Z.eqb_refl.
      rewrite Eid in Hy. destruct (rename_others uid name l Hy) as [E1 _].
      rewrite E1. f_equal. destruct u; cbn in *. now subst.
    + unfold Sql.rename at 1.
      destruct (Sql.u_id y =? uid)%Z eqn:Ey.
      * apply Z.eqb_eq in Ey. exfalso. apply Hy. rewrite Ey, <- Eid.
        now apply in_map.
      * f_equal. now apply IH.
Qed.

Lemma rename_user_effect_witness :
  let app :=
    @BMIApp.run stable_engine example_platform None
      [BMIApp.Add_user (Some "Alice") None;
       BMIApp.Add_user (Some "Bob") None;
       BMIApp.Select_user (Some 1%nat)] in
  BMIApp.selected_user_id app = Some 2%Z /\
  @BMIApp.rename_user_dialog stable_engine app (Some " Alice ")
  = (app, Some (BMIApp.showerror "Rename"
                  "Failed to rename: UNIQUE constraint failed: users.name")) /\
  map Sql.u_name
      (Sql.users (DB.view (BMIApp.db
         (fst (@BMIApp.rename_user_dialog stable_engine app (Some "Bob"))))))
  = ["Alice"; "Bob"].
Proof.
  intros app.
  assert (Hsel : BMIApp.selected_user_id app = Some 2%Z) by reflexivity.
  assert (Hin : In 2%Z (user_ids (DB.view (BMIApp.db app)))) by (right; now left).
  split; [exact Hsel|]. split.
  - apply (proj1 (@rename_user_effect stable_engine app 2%Z " Alice "
                    Hsel ltac:(discriminate) Hin eq_refl)).
    now left.
  - pose proof (proj2 (@rename_user_effect stable_engine app 2%Z "Bob"
                         Hsel ltac:(discriminate) Hin eq_refl)) as H.
    cbv zeta in H.
    assert (Hfree : ~ In (Str.strip "Bob")
                      (map Sql.u_name
                         (filter (fun u => negb (Sql.u_id u =? 2)%Z)
                                 (Sql.users (DB.view (BMIApp.db app)))))).
    { cbn. intros [E | []]. discriminate E. }
    destruct (H Hfree) as [_ [Hu _]]. rewrite Hu. reflexivity.
Defined.

Lemma find_snoc {A : Type} (f : A -> bool) (l : list A) (x : A) :
  find f (l ++ [x])
  = match find f l with
    | Some y => Some y
    | None => if f x then Some x else None
    end.
Proof.
  induction l as [|y l IH]; cbn; [reflexivity|].
  destruct (f y); [reflexivity | exact IH].
Qed.

(** X11: [get_user] returns nothing exactly for an id that no user has,
    and otherwise a row of that id; right after [add_user] returned an
    id, [get_user] of that id returns the name and date of birth just
    given, and for every other id what it returned before. *)
Theorem get_user_lookup (db : DB.t) (uid : Z) :
  (DB.get_user db uid = None <-> ~ In uid (user_ids (DB.view db))) /\
  (forall t, DB.get_user db uid = Some t ->
             fst (fst t) = uid /\
             In t (map user_tuple (Sql.users (DB.view db)))) /\
  (forall name dob db' new,
     Forall (fun i => (i <= Sql.users_seq (DB.view db))%Z) (user_ids (DB.view db)) ->
     DB.add_user db name dob = (db', Some new) ->
     DB.get_user db' new = Some (new, name, dob) /\
     (forall other, other <> new -> DB.get_user db' other = DB.get_user db other)).
Proof.
  split; [|split].
  - unfold DB.get_user, user_ids.
    destruct (find (fun u => (Sql.u_id u =? uid)%Z) (Sql.users (DB.view db))) eqn:F.
    + split; [discriminate|]. intros Hno. exfalso. apply Hno.
      apply find_some in F. destruct F as [Hu Eu]. apply Z.eqb_eq in Eu.
      rewrite <- Eu. now apply in_map.
    + split; [|reflexivity]. intros _ Hin.
      apply in_map_iff in Hin. destruct Hin as [u [Eu Hu]].
      apply (find_none _ _ F) in Hu. apply Z.eqb_neq in Hu. contradiction.
  - intros t. unfold DB.get_user.
    destruct (find (fun u => (Sql.u_id u =? uid)%Z) (Sql.users (DB.view db))) eqn:F;
      [|discriminate].
    intros E. injection E as <-. apply find_some in F. destruct F as [Hu Eu].
    apply Z.eqb_eq in Eu. split; [exact Eu|]. now apply (in_map user_tuple).
  - intros name dob db' new Hb Ha.
    destruct (in_dec string_dec name (map Sql.u_name (Sql.users (DB.view db))))
      as [Hin | Hout].
    { rewrite (add_user_duplicate db name dob Hin) in Ha. discriminate. }
    rewrite (add_user_fresh db name dob Hout) in Ha. cbv zeta in Ha.
    injection Ha as <- <-. unfold DB.get_user. cbn. rewrite !find_snoc. cbn.
    assert (Hnone : find (fun u => (Sql.u_id u =? Sql.users_seq (DB.view db) + 1)%Z)
                         (Sql.users (DB.view db)) = None).
    { destruct (find _ _) eqn:F; [|reflexivity].
      apply find_some in F. destruct F as [Hu Eu]. apply Z.eqb_eq in Eu.
      rewrite Forall_forall in Hb.
      assert (Hle : (Sql.u_id u <= Sql.users_seq (DB.view db))%Z)
        by (apply Hb; unfold user_ids; now apply in_map).
      lia. }
    split.
    + now rewrite Hnone, Z.eqb_refl.
    + intros other Hne. rewrite find_snoc.
      destruct (find (fun u => (Sql.u_id u =? other)%Z) (Sql.users (DB.view db)));
        [reflexivity|].
      cbn. apply not_eq_sym, Z.eqb_neq in Hne. now rewrite Hne.
Qed.

Lemma get_user_lookup_witness :
  let db := fst (DB.add_user (DB.connect None) "Alice" (Some "1990-01-01")) in
  DB.get_user (fst (DB.add_user db "Bob" None)) 2%Z = Some (2%Z, "Bob", None) /\
  DB.get_user (fst (DB.add_user db "Bob" None)) 1%Z = DB.get_user db 1%Z.
Proof.
  intros db.
  assert (Hb : Forall (fun i => (i <= Sql.users_seq (DB.view db))%Z)
                      (user_ids (DB.view db))).
  { constructor; [cbn; lia | constructor]. }
  destruct (proj2 (proj2 (get_user_lookup db 0%Z)) "Bob" None
              (fst (DB.add_user db "Bob" None)) 2%Z Hb eq_refl) as [H1 H2].
  split; [exact H1 | apply H2; discriminate].
Defined.

(** X12: [list_users] returns every user once, as (id, name, dob), in
    ascending order of the name with the ASCII capitals folded to lower
    case. *)
Theorem list_users_sorted {O : OrderBy} (db : DB.t) :
  OrderBy_ok O ->
  Permutation (DB.list_users db) (map user_tuple (Sql.users (DB.view db))) /\
  Sorted (fun a b => String.leb (Str.nocase (snd (fst a)))
                                (Str.nocase (snd (fst b))) = true)
         (DB.list_users db).
Proof.
  intros HO. unfold DB.list_users.
  destruct (HO _ (fun u => Str.nocase (Sql.u_name u)) (Sql.users (DB.view db)))
    as [Hp Hs].
  split.
  - now apply (Permutation_map user_tuple).
  - apply (Sorted_map user_tuple). exact Hs.
Qed.

Lemma list_users_sorted_witness :
  let db :=
    fst (DB.add_user (fst (DB.add_user (fst (DB.add_user (DB.connect None)
                                               "bob" None)) "Carol" None))
                     "alice" None) in
  OrderBy_ok stable_engine /\
  map (fun t => snd (fst t)) (@DB.list_users stable_engine db)
  = ["alice"; "bob"; "Carol"] /\
  Permutation (@DB.list_users stable_engine db)
              (map user_tuple (Sql.users (DB.view db))).
Proof.
  intros db. split; [exact stable_engine_ok|]. split; [reflexivity|].
  exact (proj1 (@list_users_sorted stable_engine db stable_engine_ok)).
Defined.

Lemma dict_get_set_same (d : list (string * Z)) (k : string) (v : Z) :
  BMIApp.dict_get (BMIApp.dict_set d k v) k = Some v.
Proof.
  induction d as [|[k0 v0] d IH]; cbn.
  - now rewrite String.eqb_refl.
  - destruct (String.eqb k0 k) eqn:E; cbn.
    + now rewrite String.eqb_refl.
    + now rewrite E.
Qed.

Lemma dict_get_set_other (d : list (string * Z)) (k k' : string) (v : Z) :
  k <> k' -> BMIApp.dict_get (BMIApp.dict_set d k v) k' = BMIApp.dict_get d k'.
Proof.
  intros Hne. induction d as [|[k0 v0] d IH]; cbn.
  - apply String.eqb_neq in Hne. now rewrite Hne.
  - destruct (String.eqb k0 k) eqn:E; cbn.
    + apply String.eqb_eq in E. subst k0.
      apply String.eqb_neq in Hne. now rewrite Hne.
    + destruct (String.eqb k0 k'); [reflexivity | exact IH].
Qed.

Lemma dict_of_users_absent (users : list (Z * string * option string))
    (d : list (string * Z)) (k : string) :
  ~ In k (map (fun u => snd (fst u)) users) ->
  BMIApp.dict_get
    (fold_left (fun m u => let '(uid, name, dob) := u in BMIApp.dict_set m name uid)
               users d) k
  = BMIApp.dict_get d k.
Proof.
  revert d. induction users as [|[[uid name] dob] users IH]; intros d Hno; cbn;
    [reflexivity|].
  cbn in Hno. rewrite IH by tauto. apply dict_get_set_other. tauto.
Qed.

Lemma dict_of_users_present (users : list (Z * string * option string))
    (d : list (string * Z)) (u : Z * string * option string) :
  NoDup (map (fun u => snd (fst u)) users) -> In u users ->
  BMIApp.dict_get
    (fold_left (fun m u => let '(uid, name, dob) := u in BMIApp.dict_set m name uid)
               users d) (snd (fst u))
  = Some (fst (fst u)).
Proof.
  revert d. induction users as [|[[uid name] dob] users IH]; intros d Hn Hin;
    [destruct Hin|].
  cbn in Hn. apply NoDup_cons_iff in Hn. destruct Hn as [Hx Hn].
  cbn [fold_left]. destruct Hin as [<- | Hin].
  - cbn [fst snd]. rewrite dict_of_users_absent by exact Hx.
    apply dict_get_set_same.
  - now apply IH.
Qed.

Lemma list_users_ok_perm_helper (O : OrderBy) (HO : OrderBy_ok O) (db : DB.t) :
  Permutation (@DB.list_users O db) (map user_tuple (Sql.users (DB.view db))) /\
  (NoDup (map Sql.u_name (Sql.users (DB.view db))) ->
   NoDup (map (fun t => snd (fst t)) (@DB.list_users O db))).
Proof.
  unfold DB.list_users.
  destruct (HO _ (fun u => Str.nocase (Sql.u_name u)) (Sql.users (DB.view db)))
    as [Hp _].
  split; [now apply (Permutation_map user_tuple)|].
  intros Hn. rewrite map_map. cbn.
  apply (Permutation_NoDup (l := map Sql.u_name (Sql.users (DB.view db))));
    [|exact Hn].
  apply Permutation_map. now apply Permutation_sym.
Qed.

(** X13: with distinct user names, [refresh_user_list] fills the list box
    with the names in the order of [list_users] and maps each name to the
    id of its user; selecting an entry of the box then selects the user
    of that name. *)
Theorem selection_follows_names {O : OrderBy} (app : BMIApp.t) :
  OrderBy_ok O ->
  NoDup (map Sql.u_name (Sql.users (DB.view (BMIApp.db app)))) ->
  let app' := BMIApp.refresh_user_list app in
  BMIApp.user_listbox app'
  = map (fun t => snd (fst t)) (DB.list_users (BMIApp.db app)) /\
  (forall u, In u (Sql.users (DB.view (BMIApp.db app))) ->
             BMIApp.dict_get (BMIApp.users_map app') (Sql.u_name u)
             = Some (Sql.u_id u)) /\
  (forall i name,
     nth_error (BMIApp.user_listbox app') i = Some name ->
     exists u,
       In u (Sql.users (DB.view (BMIApp.db app))) /\ Sql.u_name u = name /\
       BMIApp.selected_user_id (BMIApp.on_user_select app' (Some i))
       = Some (Sql.u_id u)).
Proof.
  intros HO Hn app'.
  destruct (list_users_ok_perm_helper O HO (BMIApp.db app)) as [Hp Hnd].
  assert (Hmap : forall u, In u (Sql.users (DB.view (BMIApp.db app))) ->
                 BMIApp.dict_get (BMIApp.users_map app') (Sql.u_name u)
                 = Some (Sql.u_id u)).
  { intros u Hu. unfold app'. cbn [BMIApp.refresh_user_list BMIApp.users_map
                                     BMIApp.with_users].
    apply (dict_of_users_present (DB.list_users (BMIApp.db app)) [] (user_tuple u)).
    - apply Hnd. exact Hn.
    - apply (Permutation_in _ (Permutation_sym Hp)). now apply in_map. }
  split; [|split; [exact Hmap|]].
  - unfold app', BMIApp.refresh_user_list. cbn. apply map_ext.
    now intros [[uid name] dob].
  - intros i name Hnth.
    assert (Hin : In name (BMIApp.user_listbox app'))
      by (eapply nth_error_In; exact Hnth).
    unfold app' in Hin. cbn in Hin. apply in_map_iff in Hin.
    destruct Hin as [[[uid n] dob] [En Ht]]. subst n.
    apply (Permutation_in _ Hp) in Ht. apply in_map_iff in Ht.
    destruct Ht as [u [Eu Hu]]. injection Eu as Eid Ename Edob.
    exists u. split; [exact Hu|]. split; [exact Ename|].
    unfold BMIApp.on_user_select. rewrite Hnth.
    rewrite (proj1 (proj2 (refresh_chart_frame _))). cbn [BMIApp.selected_user_id
      BMIApp.with_selected_user_id]. rewrite <- Ename. now apply Hmap.
Qed.

Lemma selection_follows_names_witness :
  let app :=
    @BMIApp.run stable_engine example_platform None
      [BMIApp.Add_user (Some "bob") None; BMIApp.Add_user (Some "Alice") None] in
  OrderBy_ok stable_engine /\
  BMIApp.user_listbox (@BMIApp.refresh_user_list stable_engine app)
  = ["Alice"; "bob"] /\
  BMIApp.selected_user_id
    (@BMIApp.on_user_select stable_engine
       (@BMIApp.refresh_user_list stable_engine app) (Some 0%nat))
  = Some 2%Z.
Proof.
  intros app.
  assert (Hn : NoDup (map Sql.u_name (Sql.users (DB.view (BMIApp.db app))))).
  { constructor; [intros [E | []]; discriminate E|].
    constructor; [intros [] | constructor]. }
  pose proof (@selection_follows_names stable_engine app stable_engine_ok Hn) as H.
  cbv zeta in H. destruct H as [Hbox _].
  split; [exact stable_engine_ok|]. split; [|reflexivity].
  rewrite Hbox. reflexivity.
Defined.

(* ================================================================== *)
(** ** Statistics and categories *)




(** X15: a higher bmi never falls in a lower category: along Underweight,
    Normal, Overweight, Obese, [bmi_category] is monotone. *)
Theorem bmi_category_monotone (x y : Q) :
  x <= y ->
  (category_rank (bmi_category x) <= category_rank (bmi_category y))%nat.
Proof.
  intros Hxy.
  destruct (bmi_category_cases x)
    as [[X1 Ex] | [[X1 [X2 Ex]] | [[X1 [X2 Ex]] | [X1 Ex]]]];
    destruct (bmi_category_cases y)
      as [[Y1 Ey] | [[Y1 [Y2 Ey]] | [[Y1 [Y2 Ey]] | [Y1 Ey]]]];
    rewrite Ex, Ey; cbn; try lia; exfalso; lra.
Qed.

Lemma bmi_category_monotone_witness :
  22.86 <= 27.5 /\
  (category_rank (bmi_category 22.86) <= category_rank (bmi_category 27.5))%nat.
Proof.
  assert (H : 22.86 <= 27.5) by discriminate.
  split; [exact H | exact (bmi_category_monotone 22.86 27.5 H)].
Defined.

(** X16: [refresh_chart] changes the statistics label and nothing else
    that the engine reads; the label is 'No user selected' without a
    selection, 'No readings' for a user without history, and otherwise
    the four statistics of that user's history; 'Unable to compute stats'
    is never shown. *)
Theorem refresh_chart_label {O : OrderBy} (app : BMIApp.t) :
  (BMIApp.no_user_selected app = true ->
   BMIApp.stats_label (BMIApp.refresh_chart app) = "No user selected") /\
  (forall uid,
     BMIApp.selected_user_id app = Some uid -> uid <> 0%Z ->
     DB.get_readings (BMIApp.db app) uid = [] ->
     BMIApp.stats_label (BMIApp.refresh_chart app) = "No readings") /\
  (forall uid rec rest,
     BMIApp.selected_user_id app = Some uid -> uid <> 0%Z ->
     DB.get_readings (BMIApp.db app) uid = rec :: rest ->
     exists mean_bmi min_bmi max_bmi last_bmi,
       BMIApp.stats (map row_bmi (rec :: rest))
       = Ok (mean_bmi, min_bmi, max_bmi, last_bmi) /\
       BMIApp.stats_label (BMIApp.refresh_chart app)
       = BMIApp.stats_text mean_bmi min_bmi max_bmi last_bmi) /\
  BMIApp.stats_label (BMIApp.refresh_chart app) <> "Unable to compute stats" /\
  BMIApp.db (BMIApp.refresh_chart app) = BMIApp.db app /\
  BMIApp.selected_user_id (BMIApp.refresh_chart app) = BMIApp.selected_user_id app /\
  BMIApp.last_calculation (BMIApp.refresh_chart app) = BMIApp.last_calculation app.
Proof.
  assert (Hrows : forall rec rest,
             exists mean_bmi min_bmi max_bmi last_bmi,
               BMIApp.stats (map row_bmi (rec :: rest))
               = Ok (mean_bmi, min_bmi, max_bmi, last_bmi) /\
               BMIApp.stats_of_readings (rec :: rest)
               = BMIApp.stats_text mean_bmi min_bmi max_bmi last_bmi).
  { intros rec rest.
    destruct (stats_nonempty (row_bmi rec) (map row_bmi rest))
      as [mean [mn [mx [Es _]]]].
    exists mean, mn, mx, (last (map row_bmi rest) (row_bmi rec)).
    split; [exact Es|].
    unfold BMIApp.stats_of_readings. cbn [map]. now rewrite Es. }
  assert (Hnot : forall rows,
             BMIApp.stats_of_readings rows <> "Unable to compute stats").
  { intros [|rec rest]; [discriminate|].
    destruct (Hrows rec rest) as [mean [mn [mx [lst [_ E]]]]].
    rewrite E. unfold BMIApp.stats_text. cbn. discriminate. }
  destruct (refresh_chart_frame app) as [F1 [F2 [_ F4]]].
  split; [|split; [|split; [|split; [|now repeat split]]]].
  - intros Hno. unfold BMIApp.refresh_chart. now rewrite Hno.
  - intros uid Hsel Hnz Hr. unfold BMIApp.refresh_chart, BMIApp.no_user_selected.
    rewrite Hsel. apply Z.eqb_neq in Hnz. now rewrite Hnz, Hr.
  - intros uid rec rest Hsel Hnz Hr.
    unfold BMIApp.refresh_chart, BMIApp.no_user_selected.
    rewrite Hsel. apply Z.eqb_neq in Hnz. rewrite Hnz, Hr.
    cbn [BMIApp.stats_label BMIApp.with_stats_label]. apply Hrows.
  - unfold BMIApp.refresh_chart.
    destruct (BMIApp.no_user_selected app); [discriminate|].
    destruct (BMIApp.selected_user_id app) as [uid|]; [|discriminate].
    cbn. apply Hnot.
Qed.

Lemma nil_of_perm {A : Type} (l : list A) : Permutation l [] -> l = [].
Proof. intros H. apply Permutation_sym in H. now apply Permutation_nil. Qed.


(* ================================================================== *)
(** ** How the operations compose *)

Lemma strip_blank (s : string) : all_space s = true -> Str.strip s = EmptyString.
Proof.
  unfold Str.strip. induction s as [|c s IH]; cbn; [reflexivity|].
  intros H. apply andb_true_iff in H. destruct H as [Hc Hs].
  rewrite Hc. now apply IH.
Qed.

(** X18: a name typed as blanks only passes the emptiness test of
    [add_user_dialog] and is stripped to the empty string: unless a user
    of that name exists, a user with the empty name is added, and no
    warning is shown. *)
Theorem add_user_dialog_blank_name {O : OrderBy} (app : BMIApp.t)
    (typed : string) (dob : option string) :
  Str.truthy typed = true -> all_space typed = true ->
  ~ In EmptyString (map Sql.u_name (Sql.users (DB.view (BMIApp.db app)))) ->
  let tb := DB.view (BMIApp.db app) in
  snd (BMIApp.add_user_dialog app (Some typed) dob) = None /\
  Sql.users (DB.view (BMIApp.db (fst (BMIApp.add_user_dialog app (Some typed) dob))))
  = (Sql.users tb ++ [Sql.mk_user (Sql.users_seq tb + 1) EmptyString dob])%list.
Proof.
  intros Ht Hs Hfree tb. unfold BMIApp.add_user_dialog.
  rewrite Ht, (strip_blank _ Hs). cbn [negb].
  rewrite (add_user_fresh _ _ dob Hfree). cbv zeta. now split.
Qed.

Lemma add_user_dialog_blank_name_witness :
  map Sql.u_name
      (Sql.users
         (DB.view
            (BMIApp.db
               (fst (@BMIApp.add_user_dialog stable_engine
                       (@BMIApp.init stable_engine None) (Some "   ") None)))))
  = [EmptyString].
Proof.
  pose proof (@add_user_dialog_blank_name stable_engine
                (@BMIApp.init stable_engine None) "   " None
                eq_refl eq_refl ltac:(intros [])) as H.
  cbv zeta in H. destruct H as [_ Hu]. rewrite Hu. reflexivity.
Defined.

Lemma filter_filter_other (uid v : Z) (l : list Sql.reading) :
  v <> uid ->
  filter (DB.owned_by v) (filter (fun r => negb (Sql.r_user_id r =? uid)%Z) l)
  = filter (DB.owned_by v) l.
Proof.
  intros Hne. induction l as [|r l IH]; cbn; [reflexivity|]. unfold DB.owned_by at 2.
  destruct (Sql.r_user_id r =? uid)%Z eqn:E1; cbn.
  - apply Z.eqb_eq in E1.
    assert (E2 : (Sql.r_user_id r =? v)%Z = false) by (apply Z.eqb_neq; lia).
    now rewrite E2.
  - unfold DB.owned_by at 1. destruct (Sql.r_user_id r =? v)%Z; now rewrite IH.
Qed.

Lemma filter_owned_deleted (uid : Z) (l : list Sql.reading) :
  filter (DB.owned_by uid) (filter (fun r => negb (Sql.r_user_id r =? uid)%Z) l) = [].
Proof.
  induction l as [|r l IH]; cbn; [reflexivity|].
  destruct (Sql.r_user_id r =? uid)%Z eqn:E; cbn; [exact IH|].
  unfold DB.owned_by at 1. now rewrite E.
Qed.

(** X19: after [delete_user], confirmed, [get_user] of the deleted id
    returns nothing, [get_readings] of that id is empty, and the history
    of every other user is what it was. *)
Theorem queries_after_delete_user {O : OrderBy} (app : BMIApp.t) (uid : Z) :
  OrderBy_ok O ->
  BMIApp.selected_user_id app = Some uid -> uid <> 0%Z ->
  let db' := BMIApp.db (fst (BMIApp.delete_user app true)) in
  DB.get_user db' uid = None /\
  DB.get_readings db' uid = [] /\
  (forall other, other <> uid ->
                 DB.get_readings db' other = DB.get_readings (BMIApp.db app) other).
Proof.
  intros HO Hsel Hnz db'.
  destruct (delete_user_tables app uid Hsel Hnz) as [Hu [Hr _]].
  fold db' in Hu, Hr. split; [|split].
  - unfold DB.get_user. rewrite Hu.
    destruct (find _ _) eqn:F; [|reflexivity].
    apply find_some in F. destruct F as [Hin Eu]. apply filter_In in Hin.
    destruct Hin as [_ Hne]. now rewrite Eu in Hne.
  - unfold DB.get_readings. rewrite Hr, filter_owned_deleted.
    destruct (HO _ Sql.r_timestamp (@nil Sql.reading)) as [Hp _].
    now rewrite (nil_of_perm _ Hp).
  - intros other Hne. unfold DB.get_readings.
    now rewrite Hr, (filter_filter_other uid other _ Hne).
Qed.

Lemma queries_after_delete_user_witness :
  let app :=
    @BMIApp.run stable_engine example_platform None
      [BMIApp.Add_user (Some "Alice") None;
       BMIApp.Select_user (Some 0%nat);
       BMIApp.Edit_inputs (Some 70) (Some 175) EmptyString;
       BMIApp.Calculate;
       BMIApp.Save "2024-05-01T08:00:00"] in
  length (@DB.get_readings stable_engine (BMIApp.db app) 1%Z) = 1%nat /\
  @DB.get_readings stable_engine
     (BMIApp.db (fst (@BMIApp.delete_user stable_engine app true))) 1%Z = [].
Proof.
  intros app. split; [reflexivity|].
  exact (proj1 (proj2 (@queries_after_delete_user stable_engine app 1%Z
                         stable_engine_ok eq_refl ltac:(discriminate)))).
Defined.

Lemma filter_snoc {A : Type} (f : A -> bool) (l : list A) (x : A) :
  filter f (l ++ [x]) = (filter f l ++ (if f x then [x] else []))%list.
Proof.
  induction l as [|y l IH]; cbn; [now destruct (f x)|].
  destruct (f y); cbn; now rewrite IH.
Qed.

(** X20: after [save_action] answered 'Saved', the history of the
    selected user is its earlier history and the new row, which carries
    the next id and the clock's timestamp; the history of every other
    user is unchanged. *)
Theorem history_after_save {O : OrderBy} {P : Platform} (app : BMIApp.t)
    (ts : string) (uid : Z) (w h bmi : Q) (category : string) :
  OrderBy_ok O ->
  BMIApp.selected_user_id app = Some uid ->
  BMIApp.weight_var app = Some w -> BMIApp.height_var app = Some h ->
  BMIApp.last_calculation app = Some (bmi, category) ->
  let db' := BMIApp.db (fst (BMIApp.save_action app ts)) in
  let stripped := Str.strip (BMIApp.notes_var app) in
  let row : DB.row :=
    ((Sql.readings_seq (DB.view (BMIApp.db app)) + 1)%Z, ts, w, h,
     BMIApp.unit_mode app, bmi, category,
     if Str.truthy stripped then Some stripped else None) in
  Permutation (DB.get_readings db' uid)
              (row :: DB.get_readings (BMIApp.db app) uid) /\
  (forall other, other <> uid ->
                 DB.get_readings db' other = DB.get_readings (BMIApp.db app) other).
Proof.
  intros HO Hsel Hw Hh Hl db' stripped row.
  assert (Hv : Sql.readings (DB.view db')
               = (Sql.readings (DB.view (BMIApp.db app)) ++
                    [Sql.mk_reading (Sql.readings_seq (DB.view (BMIApp.db app)) + 1)
                       uid ts w h (BMIApp.unit_mode app) bmi category
                       (if Str.truthy stripped then Some stripped else None)])%list).
  { unfold db', BMIApp.save_action. rewrite Hl, Hw, Hh, Hsel.
    rewrite save_reading_appends. cbn [fst].
    now rewrite (proj1 (refresh_chart_frame _)). }
  split.
  - unfold DB.get_readings. rewrite Hv, filter_snoc.
    unfold DB.owned_by at 2. cbn [Sql.r_user_id]. rewrite Z.eqb_refl.
    set (old := filter (DB.owned_by uid) (Sql.readings (DB.view (BMIApp.db app)))).
    set (r := Sql.mk_reading _ _ _ _ _ _ _ _ _).
    change row with (DB.select_row r). rewrite <- map_cons.
    apply Permutation_map.
    destruct (HO _ Sql.r_timestamp (old ++ [r])%list) as [Hp1 _].
    destruct (HO _ Sql.r_timestamp old) as [Hp2 _].
    rewrite Hp1, Hp2. apply Permutation_sym, Permutation_cons_append.
  - intros other Hne. unfold DB.get_readings. rewrite Hv, filter_snoc.
    unfold DB.owned_by at 2. cbn [Sql.r_user_id].
    assert (E : (uid =? other)%Z = false) by (apply Z.eqb_neq; lia).
    now rewrite E, app_nil_r.
Qed.

Lemma history_after_save_witness :
  let app :=
    @BMIApp.run stable_engine example_platform None
      [BMIApp.Add_user (Some "Alice") None;
       BMIApp.Select_user (Some 0%nat);
       BMIApp.Edit_inputs (Some 70) (Some 175) " first ";
       BMIApp.Calculate] in
  Permutation
    (@DB.get_readings stable_engine
       (BMIApp.db (fst (@BMIApp.save_action stable_engine app "2024-05-01T08:00:00")))
       1%Z)
    [(1%Z, "2024-05-01T08:00:00", 70, 175, "metric", 22.86, "Normal", Some "first")].
Proof.
  intros app.
  exact (proj1 (@history_after_save stable_engine example_platform app
                  "2024-05-01T08:00:00" 1%Z 70 175 22.86 "Normal"
                  stable_engine_ok eq_refl eq_refl eq_refl eq_refl)).
Defined.
